(** * bird: the [follow] / [unfollow] command handlers

    A shallow embedding of the two command modules of the CLI:

    - [src/commands/follow.ts]: [resolveUserId] and the single-target
      [follow] and [unfollow] actions registered by
      [registerFollowCommands];
    - the batch module: the multi-target [follow] action registered by
      [registerFollowCommand].

    The handlers are sequential effectful code.  They are written here in a
    small state-and-trace monad: the state is the outside world the platform
    client talks to, the trace is the list of observable events (lines on
    stdout and stderr, calls to the collaborators, the pacing delay).
    [process.exit] only ever occurs in tail position once the [else]
    branches are nested, so a handler returns its exit status. *)

From Stdlib Require Import String Ascii List Bool Arith Lia DecimalString.
Import ListNotations.
Local Open Scope string_scope.
Local Open Scope list_scope.
Local Open Scope nat_scope.

(** ** JavaScript values used by the handlers *)

(** [\d] of a JavaScript regular expression without the [u] flag: [0-9]. *)
Definition is_digit (c : ascii) : bool :=
  (48 <=? nat_of_ascii c) && (nat_of_ascii c <=? 57).

Fixpoint all_digits (s : string) : bool :=
  match s with
  | EmptyString => true
  | String c s' => is_digit c && all_digits s'
  end.

(** [/^\d+$/.test(s)]: one digit at least, and digits only. *)
Definition numeric_re (s : string) : bool :=
  match s with
  | EmptyString => false
  | String _ _ => all_digits s
  end.

(** Truthiness of a [string | null | undefined]: the empty string is falsy. *)
Definition truthy (o : option string) : bool :=
  match o with
  | Some (String _ _) => true
  | _ => false
  end.

(** [o ?? d] *)
Definition nullish_or (o : option string) (d : string) : string :=
  match o with
  | Some s => s
  | None => d
  end.

(** [`${o}`] inside a template literal. *)
Definition interpolate (o : option string) : string :=
  match o with
  | Some s => s
  | None => "undefined"
  end.

(** ** Data model *)

Record Cookies := mkCookies {
  authToken : option string;
  ct0 : option string
}.

(** Result of [client.getUserIdByUsername]. *)
Record LookupResult := mkLookup {
  lookup_success : bool;
  lookup_userId : option string;
  lookup_username : option string;
  lookup_error : option string
}.

(** Result of a follow or unfollow call. *)
Record OperationResult := mkOperation {
  op_success : bool;
  op_username : option string;
  op_error : option string
}.

(** What [resolveUserId] returns when it does not return [null]. *)
Record Resolved := mkResolved {
  userId : string;
  username : option string
}.

(** One element of the batch driver's [results] array. *)
Record ResultRecord := mkRecord {
  rec_input : string;
  rec_userId : option string;
  rec_success : bool;
  rec_error : option string
}.

(** The batch driver's two locals. *)
Record BatchState := mkBatch {
  results : list ResultRecord;
  failures : nat
}.

(** Observable events, in the order they happen. *)
Inductive Event : Type :=
| Stdout (line : string)          (* console.log *)
| Stderr (line : string)          (* console.error *)
| CallNormalize (raw : string)    (* normalizeHandle(raw) *)
| NetLookup (handle : string)     (* client.getUserIdByUsername(handle) *)
| NetFollow (id : string)         (* client.follow(id) / client.followUser(id) *)
| NetUnfollow (id : string)       (* client.unfollow(id) *)
| Sleep (ms : nat).               (* await new Promise(r => setTimeout(r, ms)) *)

Definition is_network (e : Event) : bool :=
  match e with
  | NetLookup _ | NetFollow _ | NetUnfollow _ => true
  | _ => false
  end.

Definition is_follow_call (e : Event) : bool :=
  match e with
  | NetFollow _ => true
  | _ => false
  end.

Definition is_lookup (e : Event) : bool :=
  match e with
  | NetLookup _ => true
  | _ => false
  end.

Definition is_sleep (e : Event) : bool :=
  match e with
  | Sleep _ => true
  | _ => false
  end.

Definition is_normalize (e : Event) : bool :=
  match e with
  | CallNormalize _ => true
  | _ => false
  end.

(** The lines written to stdout, in order. *)
Fixpoint stdout_lines (t : list Event) : list string :=
  match t with
  | [] => []
  | Stdout l :: t' => l :: stdout_lines t'
  | _ :: t' => stdout_lines t'
  end.

(** The lines written to stderr, in order. *)
Fixpoint stderr_lines (t : list Event) : list string :=
  match t with
  | [] => []
  | Stderr l :: t' => l :: stderr_lines t'
  | _ :: t' => stderr_lines t'
  end.

Definition is_console (e : Event) : bool :=
  match e with
  | Stdout _ | Stderr _ => true
  | _ => false
  end.

Definition is_unfollow_call (e : Event) : bool :=
  match e with
  | NetUnfollow _ => true
  | _ => false
  end.

(** Number of events of a kind. *)
Definition count_events (f : Event -> bool) (t : list Event) : nat :=
  length (filter f t).

(** What a run does besides printing: the calls and the delays. *)
Definition effects (t : list Event) : list Event :=
  filter (fun e => negb (is_console e)) t.

(** [r.userId !== undefined] and [r.error !== undefined] *)
Definition has_userId (r : ResultRecord) : bool :=
  match rec_userId r with
  | Some _ => true
  | None => false
  end.

Definition has_error (r : ResultRecord) : bool :=
  match rec_error r with
  | Some _ => true
  | None => false
  end.

(** The ids of the follow calls and the handles of the lookups, in order. *)
Fixpoint followed_ids (t : list Event) : list string :=
  match t with
  | [] => []
  | NetFollow id :: t' => id :: followed_ids t'
  | _ :: t' => followed_ids t'
  end.

Fixpoint looked_up (t : list Event) : list string :=
  match t with
  | [] => []
  | NetLookup h :: t' => h :: looked_up t'
  | _ :: t' => looked_up t'
  end.

(** The user ids of the records that have one, in order. *)
Definition record_ids (rs : list ResultRecord) : list string :=
  flat_map (fun r => match rec_userId r with
                     | Some id => [id]
                     | None => []
                     end) rs.

(** ** [JSON.stringify(value, null, 2)] on a batch report *)

Definition dquote : string := String "034"%char EmptyString.
Definition newline : string := String "010"%char EmptyString.

Definition hex_digit (n : nat) : ascii :=
  if n <? 10 then ascii_of_nat (48 + n) else ascii_of_nat (87 + n).

(** Quoting of one code unit: the two-character escapes, [\u00xx] for the
    other control characters, everything else as it is. *)
Definition json_escape_char (c : ascii) : string :=
  let n := nat_of_ascii c in
  if n =? 34 then "\" ++ dquote
  else if n =? 92 then "\\"
  else if n =? 8 then "\b"
  else if n =? 9 then "\t"
  else if n =? 10 then "\n"
  else if n =? 12 then "\f"
  else if n =? 13 then "\r"
  else if n <? 32 then
    "\u00" ++ String (hex_digit (n / 16)) (String (hex_digit (n mod 16)) EmptyString)
  else String c EmptyString.

Fixpoint json_escape (s : string) : string :=
  match s with
  | EmptyString => EmptyString
  | String c s' => json_escape_char c ++ json_escape s'
  end.

Definition json_string (s : string) : string :=
  dquote ++ json_escape s ++ dquote.

Definition json_bool (b : bool) : string :=
  if b then "true" else "false".

Definition json_nat (n : nat) : string :=
  NilEmpty.string_of_uint (Nat.to_uint n).

Definition json_member (indent key value : string) : string :=
  indent ++ dquote ++ key ++ dquote ++ ": " ++ value.

(** A property whose value is [undefined] is left out. *)
Definition json_optional (indent key : string) (o : option string) : list string :=
  match o with
  | Some s => [json_member indent key (json_string s)]
  | None => []
  end.

Fixpoint join (sep : string) (l : list string) : string :=
  match l with
  | [] => EmptyString
  | [x] => x
  | x :: l' => x ++ sep ++ join sep l'
  end.

(** One record of [results], two levels deep; the properties come in the
    order the object literals list them: input, userId, success, error. *)
Definition json_record (r : ResultRecord) : string :=
  "{" ++ newline
  ++ join ("," ++ newline)
       ([json_member "      " "input" (json_string (rec_input r))]
        ++ json_optional "      " "userId" (rec_userId r)
        ++ [json_member "      " "success" (json_bool (rec_success r))]
        ++ json_optional "      " "error" (rec_error r))
  ++ newline ++ "    }".

Definition json_results (rs : list ResultRecord) : string :=
  match rs with
  | [] => "[]"
  | _ :: _ =>
      "[" ++ newline
      ++ join ("," ++ newline) (map (fun r => ("    " ++ json_record r)%string) rs)
      ++ newline ++ "  ]"
  end.

(** [JSON.stringify({ results, failures }, null, 2)] *)
Definition JSON_stringify (st : BatchState) : string :=
  "{" ++ newline
  ++ json_member "  " "results" (json_results (results st)) ++ "," ++ newline
  ++ json_member "  " "failures" (json_nat (failures st)) ++ newline
  ++ "}".

(** Last character of a string, used to tell a progress line from the JSON
    document. *)
Fixpoint last_char (s : string) : option ascii :=
  match s with
  | EmptyString => None
  | String c EmptyString => Some c
  | String _ s' => last_char s'
  end.

(** [sub] occurs in [s]. *)
Fixpoint contains (sub s : string) : bool :=
  String.prefix sub s ||
  match s with
  | EmptyString => false
  | String _ s' => contains sub s'
  end.

(** Value of a truthy [string | null | undefined], for code that uses the
    string after testing it. *)
Definition truthy_value (o : option string) : option string :=
  match o with
  | Some (String _ _ as s) => Some s
  | _ => None
  end.

(** [!cookies.authToken || !cookies.ct0] *)
Definition credentials_missing (cookies : Cookies) : bool :=
  negb (truthy (authToken cookies)) || negb (truthy (ct0 cookies)).

(** [failures += 1; results.push(r)] *)
Definition record_failure (r : ResultRecord) (st : BatchState) : BatchState :=
  mkBatch (results st ++ [r]) (failures st + 1).

(** [results.push(r)] *)
Definition record_success (r : ResultRecord) (st : BatchState) : BatchState :=
  mkBatch (results st ++ [r]) (failures st).

(** Number of records with [success = false]. *)
Definition count_failed (rs : list ResultRecord) : nat :=
  length (filter (fun r => negb (rec_success r)) rs).

(** How the batch action ends: the exit status, and the locals [results] and
    [failures] as they stand then ([None] when the process exits before they
    are declared). *)
Record BatchExit := mkBatchExit {
  exit_status : nat;
  report : option BatchState
}.

(** A mutation result with its username removed. *)
Definition forget_username (r : OperationResult) : OperationResult :=
  mkOperation (op_success r) None (op_error r).

(** ** The handlers *)

Section Handlers.

(** The world behind the collaborators (the platform, the cookie store). *)
Variable W : Type.
(** [program.opts()] *)
Variable Options : Type.

(** The platform client: every call is one network round trip, and may
    answer differently from one call to the next. *)
Record TwitterClient := mkClient {
  getUserIdByUsername : string -> W -> LookupResult * W;
  follow : string -> W -> OperationResult * W;
  unfollow : string -> W -> OperationResult * W;
  followUser : string -> W -> OperationResult * W
}.

Record CliContext := mkContext {
  p : string -> string;
  resolveTimeoutFromOptions : Options -> option nat;
  resolveCredentialsFromOptions : Options -> W -> (Cookies * list string) * W
}.

Variable ctx : CliContext.
(** [normalizeHandle] of [lib/normalize-handle.js]: a handle, or [null]. *)
Variable normalizeHandle : string -> option string.
(** [new TwitterClient({ cookies, timeoutMs })] *)
Variable newTwitterClient : Cookies -> option nat -> TwitterClient.

(** State (the world) and trace (the events). *)
Definition IO (A : Type) : Type := W -> A * W * list Event.

Definition ret {A : Type} (a : A) : IO A :=
  fun w => (a, w, []).

Definition bind {A B : Type} (m : IO A) (k : A -> IO B) : IO B :=
  fun w =>
    let '(a, w1, t1) := m w in
    let '(b, w2, t2) := k a w1 in
    (b, w2, t1 ++ t2).

Notation "x <- m ;; k" := (bind m (fun x => k))
  (at level 61, m at next level, right associativity).
Notation "m ;; k" := (bind m (fun _ => k))
  (at level 61, right associativity).

Definition emit (e : Event) : IO unit :=
  fun w => (tt, w, [e]).

Definition console_log (line : string) : IO unit := emit (Stdout line).
Definition console_error (line : string) : IO unit := emit (Stderr line).
Definition sleep (ms : nat) : IO unit := emit (Sleep ms).

(** An awaited call to a collaborator, logged as [e]. *)
Definition await {A : Type} (e : list Event) (call : W -> A * W) : IO A :=
  fun w => let '(a, w') := call w in (a, w', e).

Definition call_normalizeHandle (raw : string) : IO (option string) :=
  fun w => (normalizeHandle raw, w, [CallNormalize raw]).

(** [if (!quiet) { m }] *)
Definition unless (quiet : bool) (m : IO unit) : IO unit :=
  if quiet then ret tt else m.

Fixpoint for_of {A : Type} (l : list A) (body : A -> IO unit) : IO unit :=
  match l with
  | [] => ret tt
  | x :: l' => body x ;; for_of l' body
  end.

(** [process.exit(code)], always the last thing a handler does. *)
Definition process_exit {A : Type} (code : A) : IO A := ret code.

Definition value {A : Type} (r : A * W * list Event) : A := fst (fst r).
Definition world {A : Type} (r : A * W * list Event) : W := snd (fst r).
Definition trace {A : Type} (r : A * W * list Event) : list Event := snd r.

(** *** [src/commands/follow.ts] *)

Definition resolveUserId (client : TwitterClient) (usernameOrId : string)
  : IO (option Resolved) :=
  if numeric_re usernameOrId then
    ret (Some (mkResolved usernameOrId None))
  else
    handle <- call_normalizeHandle usernameOrId ;;
    match truthy_value handle with
    | None =>
        console_error (p ctx "err" ++ "Invalid username: " ++ usernameOrId) ;;
        ret None
    | Some handle =>
        lookup <- await [NetLookup handle] (getUserIdByUsername client handle) ;;
        match lookup_success lookup, truthy_value (lookup_userId lookup) with
        | true, Some id =>
            ret (Some (mkResolved id (lookup_username lookup)))
        | _, _ =>
            console_error (p ctx "err" ++ "Failed to find user @" ++ handle ++ ": "
                           ++ nullish_or (lookup_error lookup) "Unknown error") ;;
            ret None
        end
    end.

(** [username ? `@${username}` : fallback] *)
Definition at_name (username : option string) (fallback : string) : string :=
  match truthy_value username with
  | Some u => "@" ++ u
  | None => fallback
  end.

(** The action of the single-target [follow] command. *)
Definition followAction (usernameOrId : string) (opts : Options) : IO nat :=
  let timeoutMs := resolveTimeoutFromOptions ctx opts in
  cw <- await [] (resolveCredentialsFromOptions ctx opts) ;;
  let cookies := fst cw in
  let warnings := snd cw in
  for_of warnings (fun warning => console_error (p ctx "warn" ++ warning)) ;;
  if credentials_missing cookies then
    console_error (p ctx "err" ++ "Missing required credentials") ;;
    process_exit 1
  else
    let client := newTwitterClient cookies timeoutMs in
    resolved <- resolveUserId client usernameOrId ;;
    match resolved with
    | None => process_exit 1
    | Some r =>
        let displayName := at_name (username r) (userId r) in
        result <- await [NetFollow (userId r)] (follow client (userId r)) ;;
        if op_success result then
          let finalName := at_name (op_username result) displayName in
          console_log (p ctx "ok" ++ "Now following " ++ finalName) ;;
          ret 0
        else
          console_error (p ctx "err" ++ "Failed to follow " ++ displayName ++ ": "
                         ++ interpolate (op_error result)) ;;
          process_exit 1
    end.

(** The action of the [unfollow] command. *)
Definition unfollowAction (usernameOrId : string) (opts : Options) : IO nat :=
  let timeoutMs := resolveTimeoutFromOptions ctx opts in
  cw <- await [] (resolveCredentialsFromOptions ctx opts) ;;
  let cookies := fst cw in
  let warnings := snd cw in
  for_of warnings (fun warning => console_error (p ctx "warn" ++ warning)) ;;
  if credentials_missing cookies then
    console_error (p ctx "err" ++ "Missing required credentials") ;;
    process_exit 1
  else
    let client := newTwitterClient cookies timeoutMs in
    resolved <- resolveUserId client usernameOrId ;;
    match resolved with
    | None => process_exit 1
    | Some r =>
        let displayName := at_name (username r) (userId r) in
        result <- await [NetUnfollow (userId r)] (unfollow client (userId r)) ;;
        if op_success result then
          let finalName := at_name (op_username result) displayName in
          console_log (p ctx "ok" ++ "Unfollowed " ++ finalName) ;;
          ret 0
        else
          console_error (p ctx "err" ++ "Failed to unfollow " ++ displayName ++ ": "
                         ++ interpolate (op_error result)) ;;
          process_exit 1
    end.

(** *** The batch module: [follow <user-id-or-handle...> [--json]] *)

(** Lines 66 to 83 of the loop body: the mutation call, its record and
    progress line, and the delay.  [n] is [userIdOrHandles.length]. *)
Definition follow_and_pace (client : TwitterClient) (json : bool) (n : nat)
    (isUserId : bool) (userId displayName : string) (st : BatchState)
  : IO BatchState :=
  result <- await [NetFollow userId] (followUser client userId) ;;
  st' <- (if op_success result then
            unless json
              (console_log (p ctx "ok" ++ "Followed " ++ displayName
                            ++ (if isUserId then EmptyString
                                else " (ID: " ++ userId ++ ")"))) ;;
            ret (record_success (mkRecord displayName (Some userId) true None) st)
          else
            unless json
              (console_error (p ctx "err" ++ "Failed to follow " ++ displayName
                              ++ ": " ++ interpolate (op_error result))) ;;
            ret (record_failure
                   (mkRecord displayName (Some userId) false (op_error result)) st)) ;;
  (if 1 <? n then sleep 500 else ret tt) ;;
  ret st'.

(** One iteration of [for (const input of userIdOrHandles)]; the two
    [continue]s are the branches that return without reaching
    [follow_and_pace]. *)
Definition loop_body (client : TwitterClient) (json : bool) (n : nat)
    (input : string) (st : BatchState) : IO BatchState :=
  let isUserId := numeric_re input in
  if isUserId then
    follow_and_pace client json n true input input st
  else
    handle <- call_normalizeHandle input ;;
    match truthy_value handle with
    | None =>
        unless json (console_error (p ctx "err" ++ "Invalid handle: " ++ input)) ;;
        ret (record_failure
               (mkRecord input None false (Some "Invalid handle format")) st)
    | Some handle =>
        let displayName := ("@" ++ handle)%string in
        lookupResult <- await [NetLookup handle] (getUserIdByUsername client handle) ;;
        match lookup_success lookupResult,
              truthy_value (lookup_userId lookupResult) with
        | true, Some userId =>
            follow_and_pace client json n false userId displayName st
        | _, _ =>
            let error := nullish_or (lookup_error lookupResult) "User not found" in
            unless json
              (console_error (p ctx "err" ++ "Failed to find user " ++ displayName
                              ++ ": " ++ error)) ;;
            ret (record_failure (mkRecord displayName None false (Some error)) st)
        end
    end.

(** The [for ... of] loop over the targets, threading the locals. *)
Fixpoint for_targets (body : string -> BatchState -> IO BatchState)
    (targets : list string) (st : BatchState) : IO BatchState :=
  match targets with
  | [] => ret st
  | input :: rest => st' <- body input st ;; for_targets body rest st'
  end.

(** The action of the batch [follow] command. *)
Definition batchFollowAction (userIdOrHandles : list string) (json : bool)
    (opts : Options) : IO BatchExit :=
  let timeoutMs := resolveTimeoutFromOptions ctx opts in
  cw <- await [] (resolveCredentialsFromOptions ctx opts) ;;
  let cookies := fst cw in
  let warnings := snd cw in
  for_of warnings (fun warning => console_error (p ctx "warn" ++ warning)) ;;
  if credentials_missing cookies then
    console_error (p ctx "err" ++ "Missing required credentials") ;;
    process_exit (mkBatchExit 1 None)
  else
    let client := newTwitterClient cookies timeoutMs in
    st <- for_targets (loop_body client json (length userIdOrHandles))
            userIdOrHandles (mkBatch [] 0) ;;
    (if json then console_log (JSON_stringify st) else ret tt) ;;
    if 0 <? failures st then
      process_exit (mkBatchExit 1 (Some st))
    else
      ret (mkBatchExit 0 (Some st)).

(** The traces of the iterations of the loop, one per target. *)
Fixpoint segments (body : string -> BatchState -> IO BatchState)
    (targets : list string) (st : BatchState) (w : W) : list (list Event) :=
  match targets with
  | [] => []
  | input :: rest =>
      let r := body input st w in
      trace r :: segments body rest (value r) (world r)
  end.

(** The batch driver alone (lines 27 to 84), for a command whose credentials
    are in order: the client it builds and the loop it runs. *)
Definition batch_driver (userIdOrHandles : list string) (json : bool)
    (opts : Options) : IO BatchState :=
  fun w =>
    let cw := resolveCredentialsFromOptions ctx opts w in
    let client :=
      newTwitterClient (fst (fst cw)) (resolveTimeoutFromOptions ctx opts) in
    for_targets (loop_body client json (length userIdOrHandles))
      userIdOrHandles (mkBatch [] 0) (snd cw).

End Handlers.

Arguments ret {W A} a.
Arguments value {W A} r.
Arguments world {W A} r.
Arguments trace {W A} r.
Arguments getUserIdByUsername {W} t _ _.
Arguments follow {W} t _ _.
Arguments unfollow {W} t _ _.
Arguments followUser {W} t _ _.
Arguments p {W Options} c _.
Arguments resolveTimeoutFromOptions {W Options} c _.
Arguments resolveCredentialsFromOptions {W Options} c _ _.
Arguments resolveUserId {W Options} ctx normalizeHandle client usernameOrId.
Arguments followAction {W Options} ctx normalizeHandle newTwitterClient.
Arguments unfollowAction {W Options} ctx normalizeHandle newTwitterClient.
Arguments follow_and_pace {W Options} ctx client json n isUserId userId displayName st.
Arguments loop_body {W Options} ctx normalizeHandle client json n input st.
Arguments for_targets {W} body targets st.
Arguments segments {W} body targets st w.
Arguments batchFollowAction {W Options} ctx normalizeHandle newTwitterClient.
Arguments batch_driver {W Options} ctx normalizeHandle newTwitterClient.

(** The exit rule of the batch command in the spec's words: the status is
    non-zero exactly when [failures > 0]. *)
Definition exit_rule_as_worded (e : BatchExit) : bool :=
  Bool.eqb (negb (exit_status e =? 0))
    (match report e with
     | Some st => 0 <? failures st
     | None => false
     end).

(** The pacing rule in the spec's words, over the traces of the iterations:
    one delay after every target that has a successor, none after the
    last. *)
Fixpoint delays_only_between (segs : list (list Event)) : bool :=
  match segs with
  | [] => true
  | seg :: rest =>
      match rest with
      | [] => negb (existsb is_sleep seg)
      | _ :: _ => (length (filter is_sleep seg) =? 1) && delays_only_between rest
      end
  end.

(** ** A sample world

    The collaborators are not part of the two command modules; the theorems
    below hold for any of them.  This small instance is what the concrete
    runs use. *)

Module Sample.

(** The world: the ids followed so far. *)
Definition World : Type := list string.

(** The options carry what the credential resolver will find. *)
Definition Opts : Type := (Cookies * list string)%type.

Definition directory : list (string * string) :=
  [("alice", "999"); ("bob", "123456")].

Definition by_name (h : string) : option (string * string) :=
  find (fun u => String.eqb (fst u) h) directory.

Definition by_id (id : string) : option (string * string) :=
  find (fun u => String.eqb (snd u) id) directory.

Definition lookup (h : string) (w : World) : LookupResult * World :=
  match by_name h with
  | Some u => (mkLookup true (Some (snd u)) (Some (fst u)) None, w)
  | None => (mkLookup false None None (Some "User not found"), w)
  end.

Definition do_follow (id : string) (w : World) : OperationResult * World :=
  match by_id id with
  | Some u => (mkOperation true (Some (fst u)) None, id :: w)
  | None => (mkOperation false None (Some "Cannot find user"), w)
  end.

Definition do_unfollow (id : string) (w : World) : OperationResult * World :=
  match by_id id with
  | Some u =>
      (mkOperation true (Some (fst u)) None,
       filter (fun x => negb (String.eqb x id)) w)
  | None => (mkOperation false None (Some "Cannot find user"), w)
  end.

Definition client : TwitterClient World :=
  mkClient World lookup do_follow do_unfollow do_follow.

Definition ctx : CliContext World Opts :=
  mkContext World Opts
    (fun kind => ("[" ++ kind ++ "] ")%string)
    (fun _ => None)
    (fun opts w => (opts, w)).

Definition handle_char (c : ascii) : bool :=
  let n := nat_of_ascii c in
  ((48 <=? n) && (n <=? 57)) || ((65 <=? n) && (n <=? 90))
  || ((97 <=? n) && (n <=? 122)) || (n =? 95).

Fixpoint handle_chars (s : string) : bool :=
  match s with
  | EmptyString => true
  | String c s' => handle_char c && handle_chars s'
  end.

(** Modelled from the spec: [lib/normalize-handle.js] is not among the
    sources.  The spec only says that it turns user input into a canonical
    handle or signals an invalid format, and that the [@] prefix is its
    business; this stand-in drops one leading [@] and accepts one to fifteen
    letters, digits and underscores. *)
Definition normalizeHandle (raw : string) : option string :=
  let h := match raw with
           | String "@"%char rest => rest
           | _ => raw
           end in
  if (1 <=? String.length h) && (String.length h <=? 15) && handle_chars h
  then Some h else None.

Definition newClient (_ : Cookies) (_ : option nat) : TwitterClient World :=
  client.

Definition good_cookies : Cookies := mkCookies (Some "token") (Some "csrf").
Definition no_ct0 : Cookies := mkCookies (Some "token") None.

(** A platform whose mutations succeed and answer with an empty username. *)
Definition blank_follow (id : string) (w : World) : OperationResult * World :=
  (mkOperation true (Some EmptyString) None, id :: w).

Definition blank_client : TwitterClient World :=
  mkClient World lookup blank_follow blank_follow blank_follow.

Definition follow1 := followAction ctx normalizeHandle newClient.
Definition unfollow1 := unfollowAction ctx normalizeHandle newClient.
Definition followN := batchFollowAction ctx normalizeHandle newClient.

End Sample.


(** ** Properties *)

Section Properties.

Variable W : Type.
Variable Options : Type.
Variable ctx : CliContext W Options.
Variable normalizeHandle : string -> option string.
Variable newTwitterClient : Cookies -> option nat -> TwitterClient W.

(** The cookies the command gets, the world it continues in, and the client
    it builds, for options [opts] in world [w]. *)
Definition cookies_of (opts : Options) (w : W) : Cookies :=
  fst (fst (resolveCredentialsFromOptions ctx opts w)).

Definition warnings_of (opts : Options) (w : W) : list string :=
  snd (fst (resolveCredentialsFromOptions ctx opts w)).

Definition world_after_credentials (opts : Options) (w : W) : W :=
  snd (resolveCredentialsFromOptions ctx opts w).

Definition client_of (opts : Options) (w : W) : TwitterClient W :=
  newTwitterClient (cookies_of opts w) (resolveTimeoutFromOptions ctx opts).

Definition warning_lines (opts : Options) (w : W) : list Event :=
  map (fun warning => Stderr (p ctx "warn" ++ warning)) (warnings_of opts w).

Definition missing_line : Event :=
  Stderr (p ctx "err" ++ "Missing required credentials").

(** The progress line of a followed target. *)
Definition followed_line (isUserId : bool) (userId displayName : string) : string :=
  p ctx "ok" ++ "Followed " ++ displayName
  ++ (if isUserId then EmptyString else " (ID: " ++ userId ++ ")").

Definition follow_failed_line (displayName : string) (r : OperationResult) : string :=
  p ctx "err" ++ "Failed to follow " ++ displayName ++ ": " ++ interpolate (op_error r).

(** The record a target may leave in [results]: the id itself for a numeric
    target, the invalid-handle record when normalization fails, and a record
    named after the normalized handle otherwise. *)
Definition record_for (input : string) (r : ResultRecord) : Prop :=
  if numeric_re input then rec_input r = input /\ rec_userId r = Some input
  else match truthy_value (normalizeHandle input) with
       | None => r = mkRecord input None false (Some "Invalid handle format")
       | Some h => rec_input r = ("@" ++ h)%string
       end.

(** The delay at the end of an iteration that reached the mutation call. *)
Definition pace (n : nat) : list Event :=
  if 1 <? n then [Sleep 500] else [].

(** Lines that [--json] silences. *)
Definition quiet (json : bool) (t : list Event) : list Event :=
  if json then [] else t.

(** The one line of output of a mutation call. *)
Definition follow_output (json isUserId : bool) (userId displayName : string)
    (out : list Event) : Prop :=
  out = quiet json [Stdout (followed_line isUserId userId displayName)]
  \/ exists r, out = quiet json [Stderr (follow_failed_line displayName r)].

(** The four ways through one iteration of the loop, as traces. *)
Inductive segment_shape (json : bool) (n : nat) (input : string)
  : list Event -> Prop :=
| seg_numeric out :
    numeric_re input = true ->
    follow_output json true input input out ->
    segment_shape json n input (NetFollow input :: out ++ pace n)
| seg_invalid :
    numeric_re input = false ->
    truthy_value (normalizeHandle input) = None ->
    segment_shape json n input
      (CallNormalize input
         :: quiet json [Stderr (p ctx "err" ++ "Invalid handle: " ++ input)])
| seg_lookup_failed h error :
    numeric_re input = false ->
    truthy_value (normalizeHandle input) = Some h ->
    segment_shape json n input
      (CallNormalize input :: NetLookup h
         :: quiet json [Stderr (p ctx "err" ++ "Failed to find user "
                                ++ ("@" ++ h) ++ ": " ++ error)])
| seg_resolved h uid out :
    numeric_re input = false ->
    truthy_value (normalizeHandle input) = Some h ->
    follow_output json false uid ("@" ++ h) out ->
    segment_shape json n input
      (CallNormalize input :: NetLookup h :: NetFollow uid :: out ++ pace n).

(** What the single-target commands do after the credential check, with
    [mutate] the client method, [e] the event of its call and [ok] / [ko]
    the two lines. *)
Definition single_outcome (mutate : TwitterClient W -> string -> W -> OperationResult * W)
    (e : string -> Event) (verb_ok verb_ko : string)
    (usernameOrId : string) (opts : Options) (w : W) : nat * W * list Event :=
  let client := client_of opts w in
  let rr := resolveUserId ctx normalizeHandle client usernameOrId
              (world_after_credentials opts w) in
  match value rr with
  | None => (1, world rr, warning_lines opts w ++ trace rr)
  | Some r =>
      let res := mutate client (userId r) (world rr) in
      let displayName := at_name (username r) (userId r) in
      if op_success (fst res) then
        (0, snd res,
         warning_lines opts w ++ trace rr
           ++ [e (userId r);
               Stdout (p ctx "ok" ++ verb_ok
                       ++ at_name (op_username (fst res)) displayName)])
      else
        (1, snd res,
         warning_lines opts w ++ trace rr
           ++ [e (userId r);
               Stderr (p ctx "err" ++ verb_ko ++ displayName ++ ": "
                       ++ interpolate (op_error (fst res)))])
  end.

(** The single-target command succeeds: credentials, resolution and the one
    mutation call. *)
Definition single_succeeds
    (mutate : TwitterClient W -> string -> W -> OperationResult * W)
    (usernameOrId : string) (opts : Options) (w : W) : Prop :=
  credentials_missing (cookies_of opts w) = false
  /\ exists r,
       value (resolveUserId ctx normalizeHandle (client_of opts w) usernameOrId
                (world_after_credentials opts w)) = Some r
       /\ op_success
            (fst (mutate (client_of opts w) (userId r)
                    (world (resolveUserId ctx normalizeHandle (client_of opts w)
                              usernameOrId (world_after_credentials opts w)))))
          = true.

(** The traces of the iterations of the batch command's loop. *)
Definition batch_segments (targets : list string) (json : bool)
    (opts : Options) (w : W) : list (list Event) :=
  segments (loop_body ctx normalizeHandle (client_of opts w) json (length targets))
    targets (mkBatch [] 0) (world_after_credentials opts w).

(** A progress line of the batch command for [input]: the input itself when
    it is numeric, its normalized handle and the id looked up otherwise. *)
Definition progress_line_of (input line : string) : Prop :=
  (numeric_re input = true /\ line = followed_line true input input)
  \/ exists h uid,
       numeric_re input = false
       /\ truthy_value (normalizeHandle input) = Some h
       /\ line = followed_line false uid ("@" ++ h).

(** The pacing of one iteration among [n] targets: when there are several
    targets and the iteration reached the mutation call, it ends with the
    one delay of 500 ms; otherwise it has no delay. *)
Definition paced (n : nat) (seg : list Event) : Prop :=
  if (1 <? n) && existsb is_follow_call seg
  then exists pre, seg = pre ++ [Sleep 500] /\ existsb is_sleep pre = false
  else existsb is_sleep seg = false.

(** The iteration ends with its one delay of 500 ms. *)
Definition ends_with_delay (seg : list Event) : Prop :=
  exists pre, seg = pre ++ [Sleep 500] /\ existsb is_sleep pre = false.

(** The record and the events of the mutation call of an iteration, from
    the result [res] of the call. *)
Definition follow_record (displayName userId : string) (res : OperationResult)
  : ResultRecord :=
  if op_success res then mkRecord displayName (Some userId) true None
  else mkRecord displayName (Some userId) false (op_error res).

Definition follow_events (json isUserId : bool) (n : nat)
    (userId displayName : string) (res : OperationResult) : list Event :=
  NetFollow userId
    :: quiet json [if op_success res
                   then Stdout (followed_line isUserId userId displayName)
                   else Stderr (follow_failed_line displayName res)]
    ++ pace n.

(** One iteration of the batch loop: the record it appends and its trace,
    along the four ways through the body. *)
Inductive iteration (json : bool) (n : nat) (input : string)
  : ResultRecord -> list Event -> Prop :=
| iter_numeric res :
    numeric_re input = true ->
    iteration json n input (follow_record input input res)
      (follow_events json true n input input res)
| iter_invalid :
    numeric_re input = false ->
    truthy_value (normalizeHandle input) = None ->
    iteration json n input
      (mkRecord input None false (Some "Invalid handle format"))
      (CallNormalize input
         :: quiet json [Stderr (p ctx "err" ++ "Invalid handle: " ++ input)])
| iter_lookup_failed h lk :
    numeric_re input = false ->
    truthy_value (normalizeHandle input) = Some h ->
    lookup_success lk && truthy (lookup_userId lk) = false ->
    iteration json n input
      (mkRecord ("@" ++ h) None false
         (Some (nullish_or (lookup_error lk) "User not found")))
      (CallNormalize input :: NetLookup h
         :: quiet json [Stderr (p ctx "err" ++ "Failed to find user "
                                ++ ("@" ++ h) ++ ": "
                                ++ nullish_or (lookup_error lk) "User not found")])
| iter_resolved h uid res :
    numeric_re input = false ->
    truthy_value (normalizeHandle input) = Some h ->
    iteration json n input (follow_record ("@" ++ h) uid res)
      (CallNormalize input :: NetLookup h
         :: follow_events json false n uid ("@" ++ h) res).

(** The ways through [resolveUserId]: what it returns and its trace. *)
Inductive resolution (input : string) : option Resolved -> list Event -> Prop :=
| res_numeric :
    numeric_re input = true ->
    resolution input (Some (mkResolved input None)) []
| res_invalid :
    numeric_re input = false ->
    truthy_value (normalizeHandle input) = None ->
    resolution input None
      [CallNormalize input; Stderr (p ctx "err" ++ "Invalid username: " ++ input)]
| res_lookup_failed h lk :
    numeric_re input = false ->
    truthy_value (normalizeHandle input) = Some h ->
    lookup_success lk && truthy (lookup_userId lk) = false ->
    resolution input None
      [CallNormalize input; NetLookup h;
       Stderr (p ctx "err" ++ "Failed to find user @" ++ h ++ ": "
               ++ nullish_or (lookup_error lk) "Unknown error")]
| res_found h lk id :
    numeric_re input = false ->
    truthy_value (normalizeHandle input) = Some h ->
    lookup_success lk = true ->
    truthy_value (lookup_userId lk) = Some id ->
    resolution input (Some (mkResolved id (lookup_username lk)))
      [CallNormalize input; NetLookup h].

(** A record of the batch report is well formed: a success carries the user
    id and no error; a record without user id is a failure with its
    message. *)
Definition record_well_formed (r : ResultRecord) : Prop :=
  (rec_success r = true -> has_userId r = true /\ rec_error r = None)
  /\ (has_userId r = false -> rec_success r = false /\ has_error r = true).

(** A single-target command reports its outcome with one line: on stdout
    and with status 0, or on stderr, after the warnings, and with status 1. *)
Definition one_outcome_line (opts : Options) (w : W) (r : nat * W * list Event)
  : Prop :=
  (value r = 0
   /\ length (stdout_lines (trace r)) = 1
   /\ stderr_lines (trace r) = stderr_lines (warning_lines opts w))
  \/ (value r = 1
      /\ stdout_lines (trace r) = []
      /\ exists line,
           stderr_lines (trace r) = stderr_lines (warning_lines opts w) ++ [line]).

(** The handles the batch command has to look up: the normalized handle of
    every target that is not numeric and normalizes. *)
Definition handles_to_look_up (targets : list string) : list string :=
  flat_map (fun input =>
              if numeric_re input then []
              else match truthy_value (normalizeHandle input) with
                   | Some h => [h]
                   | None => []
                   end) targets.

(** The same client, with the username removed from every result of
    [followUser]. *)
Definition without_usernames (client : TwitterClient W) : TwitterClient W :=
  mkClient W (getUserIdByUsername client) (follow client) (unfollow client)
    (fun id w => (forget_username (fst (followUser client id w)),
                  snd (followUser client id w))).

(** What one iteration of the batch loop writes to stdout without [--json],
    in the world [w]: nothing, or the line of the followed target, made of the
    numeric input itself, or of the normalized handle and the id its lookup
    returned. *)
Definition success_line (client : TwitterClient W) (input : string) (w : W)
  : list string :=
  if numeric_re input then
    if op_success (fst (followUser client input w))
    then [followed_line true input input] else []
  else
    match truthy_value (normalizeHandle input) with
    | None => []
    | Some h =>
        let lk := getUserIdByUsername client h w in
        match lookup_success (fst lk), truthy_value (lookup_userId (fst lk)) with
        | true, Some id =>
            if op_success (fst (followUser client id (snd lk)))
            then [followed_line false id ("@" ++ h)] else []
        | _, _ => []
        end
    end.

(** The lines of the successive iterations, each in the world the previous
    ones left. *)
Fixpoint progress_lines (client : TwitterClient W) (n : nat)
    (targets : list string) (st : BatchState) (w : W) : list string :=
  match targets with
  | [] => []
  | input :: rest =>
      let r := loop_body ctx normalizeHandle client false n input st w in
      success_line client input w
      ++ progress_lines client n rest (value r) (world r)
  end.

(** *** Running the monad *)

Lemma value_triple {A : Type} (a : A) (w : W) (t : list Event) :
  value (a, w, t) = a.
Proof. reflexivity. Qed.

Lemma world_triple {A : Type} (a : A) (w : W) (t : list Event) :
  world (a, w, t) = w.
Proof. reflexivity. Qed.

Lemma trace_triple {A : Type} (a : A) (w : W) (t : list Event) :
  trace (a, w, t) = t.
Proof. reflexivity. Qed.

Lemma for_of_console_error (f : string -> string) (l : list string) (w : W) :
  for_of W l (fun x => console_error W (f x)) w
  = (tt, w, map (fun x => Stderr (f x)) l).
Proof.
  induction l as [|x l IH]; simpl.
  - reflexivity.
  - unfold bind at 1. simpl. rewrite IH. reflexivity.
Qed.

Lemma follow_and_pace_run client json n isUserId uid display st w :
  follow_and_pace ctx client json n isUserId uid display st w
  = (let r := followUser client uid w in
     ((if op_success (fst r)
       then record_success (mkRecord display (Some uid) true None) st
       else record_failure (mkRecord display (Some uid) false (op_error (fst r))) st),
      snd r,
      NetFollow uid
        :: (if json then []
            else [if op_success (fst r)
                  then Stdout (followed_line isUserId uid display)
                  else Stderr (follow_failed_line display (fst r))])
        ++ (if 1 <? n then [Sleep 500] else []))).
Proof.
  unfold follow_and_pace, bind, await, unless, console_log, console_error,
    sleep, emit, ret, followed_line, follow_failed_line.
  destruct (followUser client uid w) as [res w']. simpl.
  destruct (op_success res), json, (1 <? n); reflexivity.
Qed.

Lemma loop_body_numeric client json n input st w :
  numeric_re input = true ->
  loop_body ctx normalizeHandle client json n input st w
  = follow_and_pace ctx client json n true input input st w.
Proof.
  intros H. unfold loop_body. rewrite H. reflexivity.
Qed.

Lemma loop_body_invalid client json n input st w :
  numeric_re input = false ->
  truthy_value (normalizeHandle input) = None ->
  loop_body ctx normalizeHandle client json n input st w
  = (record_failure (mkRecord input None false (Some "Invalid handle format")) st,
     w,
     CallNormalize input
       :: (if json then []
           else [Stderr (p ctx "err" ++ "Invalid handle: " ++ input)])).
Proof.
  intros Hn Hh. unfold loop_body. rewrite Hn.
  unfold bind, call_normalizeHandle. rewrite Hh.
  unfold unless, console_error, emit, ret. destruct json; reflexivity.
Qed.

Lemma loop_body_lookup_failed client json n input st w h :
  numeric_re input = false ->
  truthy_value (normalizeHandle input) = Some h ->
  let lk := getUserIdByUsername client h w in
  lookup_success (fst lk) && truthy (lookup_userId (fst lk)) = false ->
  loop_body ctx normalizeHandle client json n input st w
  = (let error := nullish_or (lookup_error (fst lk)) "User not found" in
     (record_failure (mkRecord ("@" ++ h) None false (Some error)) st,
      snd lk,
      CallNormalize input :: NetLookup h
        :: (if json then []
            else [Stderr (p ctx "err" ++ "Failed to find user " ++ ("@" ++ h)
                          ++ ": " ++ error)]))).
Proof.
  intros Hn Hh lk Hl. unfold loop_body. rewrite Hn.
  unfold bind, call_normalizeHandle, await. rewrite Hh.
  subst lk. destruct (getUserIdByUsername client h w) as [l w']. simpl in *.
  destruct (lookup_success l); simpl in Hl.
  - destruct (lookup_userId l) as [[|c u]|]; simpl in *; try discriminate;
      unfold unless, console_error, emit, ret; destruct json; reflexivity.
  - unfold unless, console_error, emit, ret.
    destruct (truthy_value (lookup_userId l)); destruct json; reflexivity.
Qed.

Lemma loop_body_resolved client json n input st w h uid :
  numeric_re input = false ->
  truthy_value (normalizeHandle input) = Some h ->
  let lk := getUserIdByUsername client h w in
  lookup_success (fst lk) = true ->
  truthy_value (lookup_userId (fst lk)) = Some uid ->
  loop_body ctx normalizeHandle client json n input st w
  = (let r := follow_and_pace ctx client json n false uid ("@" ++ h) st (snd lk) in
     (value r, world r, CallNormalize input :: NetLookup h :: trace r)).
Proof.
  intros Hn Hh lk Hs Hu. unfold loop_body. rewrite Hn.
  unfold bind at 1. unfold call_normalizeHandle. rewrite Hh.
  unfold bind at 1. unfold await.
  subst lk. destruct (getUserIdByUsername client h w) as [l w']. simpl in *.
  rewrite Hs, Hu.
  simpl.
  match goal with
  | |- context [follow_and_pace ?c ?cl ?j ?k ?b ?u ?d ?s ?x] =>
      destruct (follow_and_pace c cl j k b u d s x) as [[v w2] t]
  end.
  reflexivity.
Qed.

(** *** The commands, once the credentials are known *)

Lemma batchFollowAction_missing targets json opts w :
  credentials_missing (cookies_of opts w) = true ->
  batchFollowAction ctx normalizeHandle newTwitterClient targets json opts w
  = (mkBatchExit 1 None, world_after_credentials opts w,
     warning_lines opts w ++ [missing_line]).
Proof.
  unfold cookies_of, world_after_credentials, warning_lines, warnings_of,
    missing_line, batchFollowAction.
  intros H. unfold bind at 1. unfold await.
  destruct (resolveCredentialsFromOptions ctx opts w) as [[cookies warnings] w1].
  simpl in *. unfold bind at 1. rewrite for_of_console_error. rewrite H.
  unfold bind, console_error, emit, process_exit, ret. simpl. reflexivity.
Qed.

Lemma batchFollowAction_valid targets json opts w :
  credentials_missing (cookies_of opts w) = false ->
  batchFollowAction ctx normalizeHandle newTwitterClient targets json opts w
  = (let d := batch_driver ctx normalizeHandle newTwitterClient targets json opts w in
     (mkBatchExit (if 0 <? failures (value d) then 1 else 0) (Some (value d)),
      world d,
      warning_lines opts w ++ trace d
        ++ (if json then [Stdout (JSON_stringify (value d))] else []))).
Proof.
  unfold cookies_of, warning_lines, warnings_of, batchFollowAction, batch_driver.
  intros H. unfold bind at 1. unfold await.
  destruct (resolveCredentialsFromOptions ctx opts w) as [[cookies warnings] w1].
  simpl in *. unfold bind at 1. rewrite for_of_console_error. rewrite H.
  unfold bind at 1.
  match goal with
  | |- context [for_targets ?b ?l ?s ?x] =>
      destruct (for_targets b l s x) as [[st w2] t]
  end.
  unfold bind, console_log, emit, process_exit, ret, value, world, trace. simpl.
  destruct json, (0 <? failures st); simpl; rewrite ?app_nil_r; reflexivity.
Qed.

Lemma resolveUserId_numeric client input w :
  numeric_re input = true ->
  resolveUserId ctx normalizeHandle client input w
  = (Some (mkResolved input None), w, []).
Proof.
  intros H. unfold resolveUserId. rewrite H. reflexivity.
Qed.

Lemma resolveUserId_invalid client input w :
  numeric_re input = false ->
  truthy_value (normalizeHandle input) = None ->
  resolveUserId ctx normalizeHandle client input w
  = (None, w,
     [CallNormalize input; Stderr (p ctx "err" ++ "Invalid username: " ++ input)]).
Proof.
  intros Hn Hh. unfold resolveUserId. rewrite Hn.
  unfold bind, call_normalizeHandle. rewrite Hh. reflexivity.
Qed.


Lemma followAction_valid usernameOrId opts w :
  credentials_missing (cookies_of opts w) = false ->
  followAction ctx normalizeHandle newTwitterClient usernameOrId opts w
  = single_outcome (@follow W) NetFollow "Now following " "Failed to follow "
      usernameOrId opts w.
Proof.
  unfold single_outcome, client_of, cookies_of, world_after_credentials,
    warning_lines, warnings_of, followAction.
  intros H. unfold bind at 1. unfold await.
  destruct (resolveCredentialsFromOptions ctx opts w) as [[cookies warnings] w1].
  simpl in *. unfold bind at 1. rewrite for_of_console_error. rewrite H.
  unfold bind at 1.
  match goal with
  | |- context [resolveUserId ?c ?nh ?cl ?u ?x] =>
      destruct (resolveUserId c nh cl u x) as [[[r|] w2] t]
  end; unfold value, world, trace; simpl.
  - unfold bind, await, console_log, console_error, emit, process_exit, ret.
    destruct (follow _ (userId r) w2) as [res w3]. simpl.
    destruct (op_success res); reflexivity.
  - unfold process_exit, ret. rewrite app_nil_r. reflexivity.
Qed.

Lemma unfollowAction_valid usernameOrId opts w :
  credentials_missing (cookies_of opts w) = false ->
  unfollowAction ctx normalizeHandle newTwitterClient usernameOrId opts w
  = single_outcome (@unfollow W) NetUnfollow "Unfollowed " "Failed to unfollow "
      usernameOrId opts w.
Proof.
  unfold single_outcome, client_of, cookies_of, world_after_credentials,
    warning_lines, warnings_of, unfollowAction.
  intros H. unfold bind at 1. unfold await.
  destruct (resolveCredentialsFromOptions ctx opts w) as [[cookies warnings] w1].
  simpl in *. unfold bind at 1. rewrite for_of_console_error. rewrite H.
  unfold bind at 1.
  match goal with
  | |- context [resolveUserId ?c ?nh ?cl ?u ?x] =>
      destruct (resolveUserId c nh cl u x) as [[[r|] w2] t]
  end; unfold value, world, trace; simpl.
  - unfold bind, await, console_log, console_error, emit, process_exit, ret.
    destruct (unfollow _ (userId r) w2) as [res w3]. simpl.
    destruct (op_success res); reflexivity.
  - unfold process_exit, ret. rewrite app_nil_r. reflexivity.
Qed.

Lemma followAction_missing usernameOrId opts w :
  credentials_missing (cookies_of opts w) = true ->
  followAction ctx normalizeHandle newTwitterClient usernameOrId opts w
  = (1, world_after_credentials opts w, warning_lines opts w ++ [missing_line]).
Proof.
  unfold cookies_of, world_after_credentials, warning_lines, warnings_of,
    missing_line, followAction.
  intros H. unfold bind at 1. unfold await.
  destruct (resolveCredentialsFromOptions ctx opts w) as [[cookies warnings] w1].
  simpl in *. unfold bind at 1. rewrite for_of_console_error. rewrite H.
  unfold bind, console_error, emit, process_exit, ret. simpl. reflexivity.
Qed.

Lemma unfollowAction_missing usernameOrId opts w :
  credentials_missing (cookies_of opts w) = true ->
  unfollowAction ctx normalizeHandle newTwitterClient usernameOrId opts w
  = (1, world_after_credentials opts w, warning_lines opts w ++ [missing_line]).
Proof.
  unfold cookies_of, world_after_credentials, warning_lines, warnings_of,
    missing_line, unfollowAction.
  intros H. unfold bind at 1. unfold await.
  destruct (resolveCredentialsFromOptions ctx opts w) as [[cookies warnings] w1].
  simpl in *. unfold bind at 1. rewrite for_of_console_error. rewrite H.
  unfold bind, console_error, emit, process_exit, ret. simpl. reflexivity.
Qed.

(** *** The loop *)

Lemma truthy_value_none o : truthy_value o = None <-> truthy o = false.
Proof. destruct o as [[|c s]|]; simpl; split; congruence. Qed.

Lemma truthy_value_some o : truthy o = true -> exists s, truthy_value o = Some s.
Proof. destruct o as [[|c s]|]; simpl; try discriminate. eauto. Qed.

Lemma for_targets_cons body input rest st (w : W) :
  for_targets body (input :: rest) st w
  = (let r := body input st w in
     let r' := for_targets body rest (value r) (world r) in
     (value r', world r', trace r ++ trace r')).
Proof.
  simpl. unfold bind. destruct (body input st w) as [[st1 w1] t1].
  unfold value, world, trace. simpl.
  destruct (for_targets body rest st1 w1) as [[st2 w2] t2]. reflexivity.
Qed.

Lemma for_targets_trace body targets st (w : W) :
  trace (for_targets body targets st w) = concat (segments body targets st w).
Proof.
  revert st w. induction targets as [|input rest IH]; intros st w.
  - reflexivity.
  - rewrite for_targets_cons. cbv zeta. unfold trace at 1. simpl snd.
    simpl segments. simpl concat. rewrite IH. reflexivity.
Qed.

Lemma segments_length body targets st (w : W) :
  length (segments body targets st w) = length targets.
Proof.
  revert st w. induction targets as [|input rest IH]; intros st w; simpl.
  - reflexivity.
  - rewrite IH. reflexivity.
Qed.

(** Every iteration appends exactly one record, and counts it when it is a
    failure. *)
Lemma loop_body_record client json n input st w :
  exists r,
    value (loop_body ctx normalizeHandle client json n input st w)
    = mkBatch (results st ++ [r])
        (failures st + (if rec_success r then 0 else 1))
    /\ record_for input r.
Proof.
  unfold record_for.
  destruct (numeric_re input) eqn:Hn.
  - rewrite loop_body_numeric by assumption. rewrite follow_and_pace_run.
    cbv zeta. unfold value. simpl fst.
    destruct (op_success (fst (followUser client input w))).
    + exists (mkRecord input (Some input) true None).
      unfold record_success. simpl. rewrite Nat.add_0_r. auto.
    + eexists (mkRecord input (Some input) false _).
      unfold record_failure. simpl. auto.
  - destruct (truthy_value (normalizeHandle input)) as [h|] eqn:Hh.
    + destruct (lookup_success (fst (getUserIdByUsername client h w))
                && truthy (lookup_userId (fst (getUserIdByUsername client h w))))
        eqn:Hl.
      * apply andb_prop in Hl. destruct Hl as [Hs Hu].
        apply truthy_value_some in Hu. destruct Hu as [uid Hu].
        rewrite (loop_body_resolved client json n input st w h uid Hn Hh Hs Hu).
        cbv zeta. unfold value at 1. simpl fst. rewrite follow_and_pace_run.
        cbv zeta. unfold value. simpl fst.
        match goal with
        | |- context [op_success ?x] => destruct (op_success x)
        end.
        -- exists (mkRecord ("@" ++ h) (Some uid) true None).
           unfold record_success. simpl. rewrite Nat.add_0_r. auto.
        -- eexists (mkRecord ("@" ++ h) (Some uid) false _).
           unfold record_failure. simpl. auto.
      * rewrite (loop_body_lookup_failed client json n input st w h Hn Hh Hl).
        cbv zeta. unfold value. simpl fst.
        eexists (mkRecord ("@" ++ h) None false _).
        unfold record_failure. simpl. auto.
    + rewrite loop_body_invalid by assumption. unfold value. simpl fst.
      exists (mkRecord input None false (Some "Invalid handle format")).
      unfold record_failure. simpl. auto.
Qed.

Lemma count_failed_app rs rs' :
  count_failed (rs ++ rs') = count_failed rs + count_failed rs'.
Proof.
  unfold count_failed. rewrite filter_app, length_app. reflexivity.
Qed.

Lemma for_targets_records client json n targets st w :
  exists rs,
    results (value (for_targets (loop_body ctx normalizeHandle client json n)
                      targets st w)) = results st ++ rs
    /\ failures (value (for_targets (loop_body ctx normalizeHandle client json n)
                          targets st w)) = failures st + count_failed rs
    /\ Forall2 record_for targets rs.
Proof.
  revert st w. induction targets as [|input rest IH]; intros st w.
  - exists []. unfold value, count_failed. simpl. rewrite app_nil_r.
    repeat split; auto; lia.
  - rewrite for_targets_cons. cbv zeta.
    destruct (loop_body_record client json n input st w) as [r [Hr Hf]].
    set (b := loop_body ctx normalizeHandle client json n input st w) in *.
    destruct (IH (value b) (world b)) as [rs [H1 [H2 H3]]].
    set (r' := for_targets _ rest (value b) (world b)) in *.
    change (value (value r', world r', trace b ++ trace r')) with (value r').
    exists (r :: rs). rewrite H1, H2, Hr. simpl results. simpl failures.
    repeat split.
    + rewrite <- app_assoc. reflexivity.
    + change (r :: rs) with ([r] ++ rs). rewrite count_failed_app.
      unfold count_failed. simpl.
      destruct (rec_success r); simpl; lia.
    + constructor; assumption.
Qed.

(** *** The trace of an iteration *)

Lemma follow_and_pace_trace client json n isUserId uid display st w :
  exists out,
    trace (follow_and_pace ctx client json n isUserId uid display st w)
    = NetFollow uid :: out ++ pace n
    /\ follow_output json isUserId uid display out.
Proof.
  rewrite follow_and_pace_run. cbv zeta. unfold trace. simpl snd.
  unfold follow_output, quiet, pace.
  destruct (op_success (fst (followUser client uid w))).
  - eexists. split; [reflexivity|]. left. reflexivity.
  - eexists. split; [reflexivity|]. right. eexists. reflexivity.
Qed.

Lemma loop_body_shape client json n input st w :
  segment_shape json n input
    (trace (loop_body ctx normalizeHandle client json n input st w)).
Proof.
  destruct (numeric_re input) eqn:Hn.
  - rewrite loop_body_numeric by assumption.
    destruct (follow_and_pace_trace client json n true input input st w)
      as [out [Ht Ho]].
    rewrite Ht. apply seg_numeric; assumption.
  - destruct (truthy_value (normalizeHandle input)) as [h|] eqn:Hh.
    + destruct (lookup_success (fst (getUserIdByUsername client h w))
                && truthy (lookup_userId (fst (getUserIdByUsername client h w))))
        eqn:Hl.
      * apply andb_prop in Hl. destruct Hl as [Hs Hu].
        apply truthy_value_some in Hu. destruct Hu as [uid Hu].
        rewrite (loop_body_resolved client json n input st w h uid Hn Hh Hs Hu).
        cbv zeta. unfold trace at 1. simpl snd.
        match goal with
        | |- context [follow_and_pace ?c ?cl ?j ?k ?b ?u ?d ?s ?x] =>
            destruct (follow_and_pace_trace cl j k b u d s x) as [out [Ht Ho]]
        end.
        rewrite Ht. apply seg_resolved; assumption.
      * rewrite (loop_body_lookup_failed client json n input st w h Hn Hh Hl).
        cbv zeta. unfold trace. simpl snd.
        apply seg_lookup_failed; assumption.
    + rewrite loop_body_invalid by assumption. unfold trace. simpl snd.
      apply seg_invalid; assumption.
Qed.

Lemma segments_shape client json n targets st w :
  Forall2 (segment_shape json n) targets
    (segments (loop_body ctx normalizeHandle client json n) targets st w).
Proof.
  revert st w. induction targets as [|input rest IH]; intros st w; simpl.
  - constructor.
  - constructor; [apply loop_body_shape | apply IH].
Qed.

(** *** What reaches stdout *)

Lemma stdout_lines_app t t' :
  stdout_lines (t ++ t') = stdout_lines t ++ stdout_lines t'.
Proof.
  induction t as [|e t IH]; simpl; [reflexivity|].
  destruct e; simpl; rewrite IH; reflexivity.
Qed.

Lemma stdout_lines_warnings opts w : stdout_lines (warning_lines opts w) = [].
Proof.
  unfold warning_lines. induction (warnings_of opts w); simpl; auto.
Qed.

Lemma segment_json_silent n input seg :
  segment_shape true n input seg -> stdout_lines seg = [].
Proof.
  intros H. destruct H as [out Hn Ho| | |h uid out Hn Hh Ho]; simpl; auto;
    unfold follow_output, quiet in Ho;
    destruct Ho as [->|[r ->]]; unfold pace; destruct (1 <? n); reflexivity.
Qed.

Lemma segments_json_silent targets segs n :
  Forall2 (segment_shape true n) targets segs -> stdout_lines (concat segs) = [].
Proof.
  induction 1 as [|input seg targets segs H _ IH]; simpl.
  - reflexivity.
  - rewrite stdout_lines_app, IH, (segment_json_silent n input seg H). reflexivity.
Qed.

Lemma driver_json_silent targets opts w :
  stdout_lines (trace (batch_driver ctx normalizeHandle newTwitterClient
                         targets true opts w)) = [].
Proof.
  unfold batch_driver. rewrite for_targets_trace.
  eapply segments_json_silent. apply segments_shape.
Qed.

Lemma batch_driver_records targets json opts w :
  Forall2 record_for targets
    (results (value (batch_driver ctx normalizeHandle newTwitterClient
                       targets json opts w)))
  /\ failures (value (batch_driver ctx normalizeHandle newTwitterClient
                        targets json opts w))
     = count_failed
         (results (value (batch_driver ctx normalizeHandle newTwitterClient
                            targets json opts w))).
Proof.
  unfold batch_driver.
  match goal with
  | |- context [for_targets (loop_body _ _ ?cl ?j ?k) ?l ?s ?x] =>
      destruct (for_targets_records cl j k l s x) as [rs [H1 [H2 H3]]]
  end.
  simpl in H1, H2. rewrite H1, H2. auto.
Qed.

(** C1. With valid credentials, the batch follow command ends with a report
    whose [results] holds exactly one record per target, in the order of the
    input (a numeric target gives the record of that id, a target whose
    handle is invalid the invalid-handle record, any other target a record
    named after its normalized handle), and whose [failures] is the number
    of records with [success = false]; with [--json] that report is the
    document on stdout. *)
Theorem batch_report_reconciles targets json opts w :
  credentials_missing (cookies_of opts w) = false ->
  exists st,
    report (value (batchFollowAction ctx normalizeHandle newTwitterClient
                     targets json opts w)) = Some st
    /\ length (results st) = length targets
    /\ Forall2 record_for targets (results st)
    /\ failures st = count_failed (results st)
    /\ (json = true ->
        stdout_lines (trace (batchFollowAction ctx normalizeHandle newTwitterClient
                               targets json opts w)) = [JSON_stringify st]).
Proof.
  intros Hc. rewrite (batchFollowAction_valid targets json opts w Hc). cbv zeta.
  destruct (batch_driver_records targets json opts w) as [H1 H2].
  eexists. split; [rewrite value_triple; reflexivity|].
  split; [symmetry; eapply Forall2_length; eassumption|].
  split; [assumption|]. split; [assumption|].
  intros ->. rewrite trace_triple.
  rewrite !stdout_lines_app, stdout_lines_warnings, driver_json_silent.
  reflexivity.
Qed.

(** *** Exit status *)

Lemma single_outcome_status mutate e verb_ok verb_ko usernameOrId opts w :
  credentials_missing (cookies_of opts w) = false ->
  (value (single_outcome mutate e verb_ok verb_ko usernameOrId opts w) = 0
   <-> single_succeeds mutate usernameOrId opts w)
  /\ (value (single_outcome mutate e verb_ok verb_ko usernameOrId opts w) = 0
      \/ value (single_outcome mutate e verb_ok verb_ko usernameOrId opts w) = 1).
Proof.
  intros Hc. unfold single_outcome, single_succeeds.
  set (rr := resolveUserId ctx normalizeHandle (client_of opts w) usernameOrId
               (world_after_credentials opts w)).
  destruct (value rr) as [r|] eqn:Hr.
  - destruct (op_success (fst (mutate (client_of opts w) (userId r) (world rr))))
      eqn:Hs; rewrite !value_triple.
    + split; [|left; reflexivity]. split; [|reflexivity].
      intros _. split; [assumption|]. exists r. split; [reflexivity|assumption].
    + split; [|right; reflexivity]. split; [discriminate|].
      intros [_ [r' [Hr' Hs']]]. injection Hr' as <-. congruence.
  - rewrite !value_triple. split; [|right; reflexivity].
    split; [discriminate|]. intros [_ [r' [Hr' _]]]. discriminate.
Qed.

(** C2 (as amended). Batch follow: with valid credentials the exit status is
    non-zero exactly when [failures > 0], and [failures] counts the failed
    records; with missing credentials the status is 1 and no report exists.
    Single-target follow and unfollow: the status is 0 exactly when the
    credentials are present, the target resolves and the one mutation
    succeeds, and it is 1 otherwise. *)
Theorem exit_status_reflects_outcome targets json usernameOrId opts w :
  let b := value (batchFollowAction ctx normalizeHandle newTwitterClient
                    targets json opts w) in
  let f := value (followAction ctx normalizeHandle newTwitterClient
                    usernameOrId opts w) in
  let u := value (unfollowAction ctx normalizeHandle newTwitterClient
                    usernameOrId opts w) in
  (credentials_missing (cookies_of opts w) = false ->
   exists st,
     report b = Some st
     /\ (exit_status b <> 0 <-> 0 < failures st)
     /\ (exit_status b = 0 \/ exit_status b = 1)
     /\ failures st = count_failed (results st))
  /\ (credentials_missing (cookies_of opts w) = true ->
      exit_status b = 1 /\ report b = None)
  /\ (f = 0 <-> single_succeeds (@follow W) usernameOrId opts w)
  /\ (f = 0 \/ f = 1)
  /\ (u = 0 <-> single_succeeds (@unfollow W) usernameOrId opts w)
  /\ (u = 0 \/ u = 1).
Proof.
  cbv zeta. split; [|split].
  - intros Hc.
    destruct (batch_driver_records targets json opts w) as [_ Hf].
    rewrite (batchFollowAction_valid targets json opts w Hc). cbv zeta.
    rewrite value_triple. eexists. split; [reflexivity|]. simpl exit_status.
    split; [|split; [|exact Hf]];
      destruct (Nat.ltb_spec 0
                  (failures (value (batch_driver ctx normalizeHandle
                                      newTwitterClient targets json opts w))));
      simpl; try split; auto; lia.
  - intros Hc. rewrite (batchFollowAction_missing targets json opts w Hc).
    unfold value. simpl. auto.
  - destruct (credentials_missing (cookies_of opts w)) eqn:Hc.
    + rewrite (followAction_missing usernameOrId opts w Hc).
      rewrite (unfollowAction_missing usernameOrId opts w Hc).
      unfold value, single_succeeds. simpl fst. rewrite Hc.
      repeat split; auto; try discriminate; intros [H _]; discriminate.
    + rewrite (followAction_valid usernameOrId opts w Hc).
      rewrite (unfollowAction_valid usernameOrId opts w Hc).
      destruct (single_outcome_status (@follow W) NetFollow "Now following "
                  "Failed to follow " usernameOrId opts w Hc) as [H1 H2].
      destruct (single_outcome_status (@unfollow W) NetUnfollow "Unfollowed "
                  "Failed to unfollow " usernameOrId opts w Hc) as [H3 H4].
      auto.
Qed.

(** *** Resolution *)

Lemma segment_numeric json n input seg :
  numeric_re input = true ->
  segment_shape json n input seg ->
  (exists rest, seg = NetFollow input :: rest)
  /\ existsb is_normalize seg = false
  /\ existsb is_lookup seg = false.
Proof.
  intros Hn H. destruct H as [out _ Ho|Hf _|h error Hf _|h uid out Hf _ _];
    try congruence.
  split; [eauto|]. unfold follow_output in Ho.
  destruct Ho as [->|[r ->]]; unfold quiet, pace;
    destruct json, (1 <? n); split; reflexivity.
Qed.

Lemma warning_lines_no (f : Event -> bool) opts w :
  (forall l, f (Stderr l) = false) ->
  existsb f (warning_lines opts w) = false.
Proof.
  intros Hf. unfold warning_lines.
  induction (warnings_of opts w); simpl; [reflexivity|].
  rewrite Hf. assumption.
Qed.

Lemma single_outcome_numeric mutate e verb_ok verb_ko input opts w :
  numeric_re input = true ->
  exists l,
    trace (single_outcome mutate e verb_ok verb_ko input opts w)
    = warning_lines opts w ++ [e input; Stdout l]
    \/ trace (single_outcome mutate e verb_ok verb_ko input opts w)
       = warning_lines opts w ++ [e input; Stderr l].
Proof.
  intros Hn. unfold single_outcome.
  rewrite resolveUserId_numeric by assumption.
  rewrite value_triple, world_triple, trace_triple. simpl userId.
  destruct (op_success _); rewrite trace_triple; eexists; [left|right];
    reflexivity.
Qed.

Lemma single_numeric_no (f : Event -> bool) mutate e verb_ok verb_ko input opts w :
  numeric_re input = true ->
  (forall l, f (Stderr l) = false) ->
  (forall l, f (Stdout l) = false) ->
  f (e input) = false ->
  existsb f (trace (single_outcome mutate e verb_ok verb_ko input opts w)) = false.
Proof.
  intros Hn Herr Hout He.
  destruct (single_outcome_numeric mutate e verb_ok verb_ko input opts w Hn)
    as [l [-> | ->]];
    rewrite existsb_app, warning_lines_no by assumption; simpl;
    rewrite He, ?Herr, ?Hout; reflexivity.
Qed.

Lemma missing_trace_no (f : Event -> bool) opts w :
  (forall l, f (Stderr l) = false) ->
  existsb f (warning_lines opts w ++ [missing_line]) = false.
Proof.
  intros Herr. rewrite existsb_app, warning_lines_no by assumption.
  unfold missing_line. simpl. rewrite Herr. reflexivity.
Qed.

(** C4. A target matching [^\d+$] is used as the user id as it is: in the
    single-target commands [resolveUserId] returns it without any event (no
    normalization, no lookup), so that the whole command neither normalizes
    nor looks up; in the batch loop the iteration starts with the mutation
    call on the input itself, contains no normalization and no lookup, and
    leaves a record whose [userId] is the input. *)
Theorem numeric_target_is_the_user_id client json n input st opts w :
  numeric_re input = true ->
  resolveUserId ctx normalizeHandle client input w
  = (Some (mkResolved input None), w, [])
  /\ existsb is_normalize
       (trace (followAction ctx normalizeHandle newTwitterClient input opts w))
     = false
  /\ existsb is_lookup
       (trace (followAction ctx normalizeHandle newTwitterClient input opts w))
     = false
  /\ existsb is_normalize
       (trace (unfollowAction ctx normalizeHandle newTwitterClient input opts w))
     = false
  /\ existsb is_lookup
       (trace (unfollowAction ctx normalizeHandle newTwitterClient input opts w))
     = false
  /\ (exists rest,
        trace (loop_body ctx normalizeHandle client json n input st w)
        = NetFollow input :: rest)
  /\ existsb is_normalize
       (trace (loop_body ctx normalizeHandle client json n input st w)) = false
  /\ existsb is_lookup
       (trace (loop_body ctx normalizeHandle client json n input st w)) = false
  /\ (exists r,
        results (value (loop_body ctx normalizeHandle client json n input st w))
        = results st ++ [r]
        /\ rec_input r = input /\ rec_userId r = Some input).
Proof.
  intros Hn. split; [apply resolveUserId_numeric; assumption|].
  assert (Hsingle :
            (existsb is_normalize
               (trace (followAction ctx normalizeHandle newTwitterClient
                         input opts w)) = false
             /\ existsb is_lookup
                  (trace (followAction ctx normalizeHandle newTwitterClient
                            input opts w)) = false)
            /\ existsb is_normalize
                 (trace (unfollowAction ctx normalizeHandle newTwitterClient
                           input opts w)) = false
            /\ existsb is_lookup
                 (trace (unfollowAction ctx normalizeHandle newTwitterClient
                           input opts w)) = false).
  { destruct (credentials_missing (cookies_of opts w)) eqn:Hc.
    - rewrite (followAction_missing input opts w Hc).
      rewrite (unfollowAction_missing input opts w Hc).
      rewrite !trace_triple. rewrite !missing_trace_no by reflexivity. auto.
    - rewrite (followAction_valid input opts w Hc).
      rewrite (unfollowAction_valid input opts w Hc).
      rewrite !single_numeric_no by (assumption || reflexivity). auto. }
  destruct Hsingle as [[H1 H2] [H3 H4]].
  destruct (segment_numeric json n input _ Hn
              (loop_body_shape client json n input st w)) as [H5 [H6 H7]].
  destruct (loop_body_record client json n input st w) as [r [Hr Hf]].
  unfold record_for in Hf. rewrite Hn in Hf.
  repeat (split; [assumption|]).
  exists r. rewrite Hr. simpl. tauto.
Qed.

Lemma single_outcome_trace mutate e verb_ok verb_ko usernameOrId opts w :
  exists tail,
    trace (single_outcome mutate e verb_ok verb_ko usernameOrId opts w)
    = warning_lines opts w
      ++ trace (resolveUserId ctx normalizeHandle (client_of opts w) usernameOrId
                  (world_after_credentials opts w))
      ++ tail.
Proof.
  unfold single_outcome.
  destruct (value _) as [r|].
  - destruct (op_success _); rewrite trace_triple; eexists; reflexivity.
  - rewrite trace_triple. exists []. rewrite app_nil_r. reflexivity.
Qed.


(** C6. When the resolved cookies lack [authToken] or [ct0], each of the
    three commands prints the warnings, then the missing-credentials line on
    stderr, and exits with status 1: nothing else happens, so no target is
    processed and no lookup or mutation call is made; the batch command has
    not even created its report. *)
Theorem missing_credentials_abort targets json usernameOrId opts w :
  credentials_missing (cookies_of opts w) = true ->
  followAction ctx normalizeHandle newTwitterClient usernameOrId opts w
  = (1, world_after_credentials opts w, warning_lines opts w ++ [missing_line])
  /\ unfollowAction ctx normalizeHandle newTwitterClient usernameOrId opts w
     = (1, world_after_credentials opts w, warning_lines opts w ++ [missing_line])
  /\ batchFollowAction ctx normalizeHandle newTwitterClient targets json opts w
     = (mkBatchExit 1 None, world_after_credentials opts w,
        warning_lines opts w ++ [missing_line])
  /\ existsb (fun e => is_network e || is_normalize e)
       (warning_lines opts w ++ [missing_line]) = false.
Proof.
  intros Hc.
  split; [apply followAction_missing; assumption|].
  split; [apply unfollowAction_missing; assumption|].
  split; [apply batchFollowAction_missing; assumption|].
  apply missing_trace_no. reflexivity.
Qed.

(** *** Pacing *)

Lemma segment_paced json n input seg :
  segment_shape json n input seg -> paced n seg.
Proof.
  intros H. unfold paced.
  destruct H as [out _ Ho| | |h uid out _ _ Ho].
  - unfold follow_output in Ho.
    destruct Ho as [->|[r ->]]; unfold quiet, pace;
      destruct json, (1 <? n); simpl; try reflexivity;
      match goal with
      | |- exists pre, ?l = _ /\ _ =>
          exists (removelast l); split; reflexivity
      end.
  - destruct json; simpl; rewrite andb_false_r; reflexivity.
  - destruct json; simpl; rewrite andb_false_r; reflexivity.
  - unfold follow_output in Ho.
    destruct Ho as [->|[r ->]]; unfold quiet, pace;
      destruct json, (1 <? n); simpl; try reflexivity;
      match goal with
      | |- exists pre, ?l = _ /\ _ =>
          exists (removelast l); split; reflexivity
      end.
Qed.

Lemma segments_paced json n targets segs :
  Forall2 (segment_shape json n) targets segs -> Forall (paced n) segs.
Proof.
  induction 1; constructor; eauto using segment_paced.
Qed.

Lemma Forall_removelast {A : Type} (P : A -> Prop) (l : list A) :
  Forall P l -> Forall P (removelast l).
Proof.
  induction 1 as [|x l Hx Hl IH]; simpl; [constructor|].
  destruct l; [constructor|]. constructor; assumption.
Qed.

Lemma removelast_short {A : Type} (l : list A) :
  length l <= 1 -> removelast l = [].
Proof.
  destruct l as [|x [|y l]]; simpl; intros H; try reflexivity. lia.
Qed.

(** C3 (as amended). With valid credentials the trace of the batch follow
    command is the warnings, then the traces of the iterations, one per
    target and in order, then the JSON document if any, and delays occur in
    the iterations only.  An iteration that reached the follow call (whether
    the call succeeded or not) and is not the last one ends with exactly one
    delay of 500 ms, so a delay separates that call from the next target; an
    iteration that stopped at normalization or lookup has no delay, whatever
    follows it; with a single target there is no delay at all.  (What the
    last of several iterations does after its follow call is left open
    here.) *)
Theorem delay_follows_each_follow_call targets json opts w :
  credentials_missing (cookies_of opts w) = false ->
  let segs := batch_segments targets json opts w in
  (exists tail,
     trace (batchFollowAction ctx normalizeHandle newTwitterClient
              targets json opts w)
     = warning_lines opts w ++ concat segs ++ tail
     /\ existsb is_sleep (warning_lines opts w) = false
     /\ existsb is_sleep tail = false)
  /\ length segs = length targets
  /\ Forall (fun seg => existsb is_follow_call seg = true -> ends_with_delay seg)
       (removelast segs)
  /\ Forall (fun seg => existsb is_follow_call seg = false ->
                        existsb is_sleep seg = false) segs
  /\ (length targets <= 1 ->
      Forall (fun seg => existsb is_sleep seg = false) segs).
Proof.
  intros Hc segs.
  assert (Hlen : length segs = length targets) by apply segments_length.
  assert (Hp : Forall (paced (length targets)) segs).
  { eapply segments_paced. apply segments_shape. }
  split; [|split; [assumption|split; [|split]]].
  - rewrite (batchFollowAction_valid targets json opts w Hc). cbv zeta.
    rewrite trace_triple. unfold batch_driver. rewrite for_targets_trace.
    eexists. split; [reflexivity|].
    split; [apply warning_lines_no; reflexivity|].
    destruct json; reflexivity.
  - destruct (Nat.ltb_spec 1 (length targets)) as [Hn|Hn].
    + apply Forall_removelast. revert Hp. apply Forall_impl.
      intros seg Hs Hf. unfold paced in Hs.
      apply Nat.ltb_lt in Hn. rewrite Hn, Hf in Hs. exact Hs.
    + rewrite removelast_short by lia. constructor.
  - revert Hp. apply Forall_impl. intros seg Hs Hf. unfold paced in Hs.
    rewrite Hf, andb_false_r in Hs. exact Hs.
  - intros Hn. revert Hp. apply Forall_impl. intros seg Hs. unfold paced in Hs.
    apply Nat.ltb_ge in Hn. rewrite Hn in Hs. exact Hs.
Qed.

(** *** Progress lines and the JSON document *)

Lemma append_empty_right (s : string) : (s ++ EmptyString)%string = s.
Proof. induction s as [|c s IH]; simpl; [reflexivity|]. rewrite IH. reflexivity. Qed.

Lemma last_char_some_nonempty s c : last_char s = Some c -> s <> EmptyString.
Proof. destruct s; simpl; congruence. Qed.

Lemma last_char_append s t c :
  last_char t = Some c -> last_char (s ++ t) = Some c.
Proof.
  intros Ht. induction s as [|a s IH]; simpl; [assumption|].
  destruct (s ++ t)%string eqn:E.
  - apply last_char_some_nonempty in IH. congruence.
  - assumption.
Qed.

Lemma last_char_digits s :
  numeric_re s = true -> exists c, last_char s = Some c /\ is_digit c = true.
Proof.
  destruct s as [|a s]; simpl; [discriminate|].
  revert a. induction s as [|b s IH]; intros a H.
  - simpl in *. rewrite andb_true_r in H. eauto.
  - apply andb_prop in H. destruct H as [_ H].
    destruct (IH b H) as [c [Hc Hd]]. exists c. split; [|assumption].
    simpl in *. assumption.
Qed.

Lemma last_char_document st : last_char (JSON_stringify st) = Some "}"%char.
Proof.
  unfold JSON_stringify. repeat apply last_char_append. reflexivity.
Qed.

Lemma progress_line_last input line :
  progress_line_of input line ->
  exists c, last_char line = Some c /\ (is_digit c = true \/ c = ")"%char).
Proof.
  intros [[Hn ->]|[h [uid [_ [_ ->]]]]]; unfold followed_line.
  - destruct (last_char_digits input Hn) as [c [Hc Hd]].
    exists c. split; [|left; assumption].
    rewrite append_empty_right. repeat apply last_char_append. assumption.
  - exists ")"%char. split; [|right; reflexivity].
    repeat apply last_char_append. reflexivity.
Qed.

Lemma progress_line_not_document input line st :
  progress_line_of input line -> line <> JSON_stringify st.
Proof.
  intros H E. destruct (progress_line_last input line H) as [c [Hc Hd]].
  rewrite E, last_char_document in Hc. injection Hc as <-.
  destruct Hd as [Hd|Hd]; discriminate.
Qed.

Lemma follow_output_plain_lines n isUserId uid display out line :
  follow_output false isUserId uid display out ->
  In line (stdout_lines (out ++ pace n)) ->
  line = followed_line isUserId uid display.
Proof.
  intros Ho Hl. rewrite stdout_lines_app in Hl.
  assert (Hp : stdout_lines (pace n) = []).
  { unfold pace. destruct (1 <? n); reflexivity. }
  rewrite Hp, app_nil_r in Hl. unfold follow_output, quiet in Ho.
  destruct Ho as [->|[r ->]]; simpl in Hl.
  - destruct Hl as [<-|[]]. reflexivity.
  - destruct Hl.
Qed.

Lemma segment_plain_lines n input seg line :
  segment_shape false n input seg ->
  In line (stdout_lines seg) -> progress_line_of input line.
Proof.
  intros H Hl. unfold progress_line_of.
  destruct H as [out Hn Ho|Hn Hh|h error Hn Hh|h uid out Hn Hh Ho];
    simpl in Hl; try (destruct Hl; fail).
  - left. split; [assumption|].
    eapply follow_output_plain_lines; eassumption.
  - right. exists h, uid. split; [assumption|]. split; [assumption|].
    eapply follow_output_plain_lines; eassumption.
Qed.

Lemma segments_plain_lines n targets segs line :
  Forall2 (segment_shape false n) targets segs ->
  In line (stdout_lines (concat segs)) ->
  exists input, In input targets /\ progress_line_of input line.
Proof.
  induction 1 as [|input seg targets segs H _ IH]; simpl; [tauto|].
  rewrite stdout_lines_app, in_app_iff. intros [Hl|Hl].
  - exists input. split; [left; reflexivity|].
    eapply segment_plain_lines; eassumption.
  - destruct (IH Hl) as [i [Hi Hp]]. exists i. auto.
Qed.

Lemma batch_plain_lines targets opts w line :
  In line (stdout_lines (trace (batchFollowAction ctx normalizeHandle
                                  newTwitterClient targets false opts w))) ->
  exists input, In input targets /\ progress_line_of input line.
Proof.
  destruct (credentials_missing (cookies_of opts w)) eqn:Hc.
  - rewrite (batchFollowAction_missing targets false opts w Hc), trace_triple.
    rewrite stdout_lines_app, stdout_lines_warnings. simpl. tauto.
  - rewrite (batchFollowAction_valid targets false opts w Hc). cbv zeta.
    rewrite trace_triple, !stdout_lines_app, stdout_lines_warnings, app_nil_r.
    simpl app. unfold batch_driver. rewrite for_targets_trace.
    apply segments_plain_lines with (n := length targets).
    apply segments_shape.
Qed.

(** C7. With [--json] the only thing the batch follow command writes to
    stdout is the JSON document of its report, once (and nothing at all when
    it stops at the credential check), and that is not a progress line of
    any target.  Without [--json] every line on stdout is the progress line
    of one of the targets, and no such line is the JSON document of any
    report. *)
Theorem json_and_progress_never_mix targets opts w :
  stdout_lines (trace (batchFollowAction ctx normalizeHandle newTwitterClient
                         targets true opts w))
  = match report (value (batchFollowAction ctx normalizeHandle newTwitterClient
                           targets true opts w)) with
    | Some st => [JSON_stringify st]
    | None => []
    end
  /\ (forall line input,
        In line (stdout_lines (trace (batchFollowAction ctx normalizeHandle
                                        newTwitterClient targets true opts w))) ->
        ~ progress_line_of input line)
  /\ (forall line,
        In line (stdout_lines (trace (batchFollowAction ctx normalizeHandle
                                        newTwitterClient targets false opts w))) ->
        (exists input, In input targets /\ progress_line_of input line)
        /\ forall st, line <> JSON_stringify st).
Proof.
  assert (Hjson :
            stdout_lines (trace (batchFollowAction ctx normalizeHandle
                                   newTwitterClient targets true opts w))
            = match report (value (batchFollowAction ctx normalizeHandle
                                     newTwitterClient targets true opts w)) with
              | Some st => [JSON_stringify st]
              | None => []
              end).
  { destruct (credentials_missing (cookies_of opts w)) eqn:Hc.
    - rewrite (batchFollowAction_missing targets true opts w Hc).
      rewrite trace_triple, value_triple, stdout_lines_app, stdout_lines_warnings.
      reflexivity.
    - rewrite (batchFollowAction_valid targets true opts w Hc). cbv zeta.
      rewrite trace_triple, value_triple, !stdout_lines_app.
      rewrite stdout_lines_warnings, driver_json_silent. reflexivity. }
  split; [exact Hjson|]. split.
  - intros line input Hl Hp. rewrite Hjson in Hl.
    destruct (report _) as [st|]; simpl in Hl; [|assumption].
    destruct Hl as [<-|[]].
    exact (progress_line_not_document input _ st Hp eq_refl).
  - intros line Hl. destruct (batch_plain_lines targets opts w line Hl)
      as [input [Hi Hp]].
    split; [eauto|]. intros st. eapply progress_line_not_document; eassumption.
Qed.

(** *** Success lines *)

Lemma single_outcome_success_line mutate e verb_ok verb_ko usernameOrId opts w r u :
  (forall id, stdout_lines [e id] = []) ->
  value (resolveUserId ctx normalizeHandle (client_of opts w) usernameOrId
           (world_after_credentials opts w)) = Some r ->
  op_success
    (fst (mutate (client_of opts w) (userId r)
            (world (resolveUserId ctx normalizeHandle (client_of opts w)
                      usernameOrId (world_after_credentials opts w))))) = true ->
  truthy_value
    (op_username
       (fst (mutate (client_of opts w) (userId r)
               (world (resolveUserId ctx normalizeHandle (client_of opts w)
                         usernameOrId (world_after_credentials opts w))))))
  = Some u ->
  stdout_lines (trace (single_outcome mutate e verb_ok verb_ko usernameOrId opts w))
  = [(p ctx "ok" ++ verb_ok ++ "@" ++ u)%string].
Proof.
  intros He Hr Hs Hu. unfold single_outcome. rewrite Hr, Hs.
  rewrite trace_triple, !stdout_lines_app, stdout_lines_warnings.
  unfold at_name at 1. rewrite Hu.
  assert (Hq : stdout_lines
                 (trace (resolveUserId ctx normalizeHandle (client_of opts w)
                           usernameOrId (world_after_credentials opts w))) = []).
  { destruct (numeric_re usernameOrId) eqn:Hn.
    - rewrite resolveUserId_numeric by assumption. reflexivity.
    - destruct (truthy_value (normalizeHandle usernameOrId)) as [h|] eqn:Hh.
      + unfold resolveUserId. rewrite Hn.
        unfold bind, call_normalizeHandle, await. rewrite Hh.
        destruct (getUserIdByUsername _ h _) as [l w'].
        destruct (lookup_success l), (truthy_value (lookup_userId l));
          reflexivity.
      + rewrite resolveUserId_invalid by assumption. reflexivity. }
  rewrite Hq. simpl.
  change (e (userId r) :: ?t) with ([e (userId r)] ++ t).
  specialize (He (userId r)).
  destruct (e (userId r)); simpl in He; try discriminate; reflexivity.
Qed.

Lemma follow_and_pace_stdout client n isUserId uid display st w :
  stdout_lines (trace (follow_and_pace ctx client false n isUserId uid display st w))
  = (if op_success (fst (followUser client uid w))
     then [followed_line isUserId uid display] else []).
Proof.
  rewrite follow_and_pace_run. cbv zeta. rewrite trace_triple.
  destruct (op_success (fst (followUser client uid w))), (1 <? n); reflexivity.
Qed.

Lemma loop_body_stdout client n input st w :
  stdout_lines (trace (loop_body ctx normalizeHandle client false n input st w))
  = success_line client input w.
Proof.
  unfold success_line. destruct (numeric_re input) eqn:Hn.
  - rewrite loop_body_numeric by assumption. apply follow_and_pace_stdout.
  - destruct (truthy_value (normalizeHandle input)) as [h|] eqn:Hh.
    + cbv zeta.
      destruct (lookup_success (fst (getUserIdByUsername client h w))
                && truthy (lookup_userId (fst (getUserIdByUsername client h w))))
        eqn:Hl.
      * apply andb_prop in Hl. destruct Hl as [Hs Hu].
        apply truthy_value_some in Hu. destruct Hu as [uid Hu].
        rewrite (loop_body_resolved client false n input st w h uid Hn Hh Hs Hu).
        cbv zeta. rewrite trace_triple, Hs, Hu.
        match goal with
        | |- context [follow_and_pace ?c ?cl ?j ?k ?b ?u ?d ?s ?x] =>
            pose proof (follow_and_pace_stdout cl k b u d s x) as Hf
        end.
        simpl. exact Hf.
      * rewrite (loop_body_lookup_failed client false n input st w h Hn Hh Hl).
        cbv zeta. rewrite trace_triple.
        destruct (lookup_success _); simpl in Hl.
        -- apply truthy_value_none in Hl. rewrite Hl. reflexivity.
        -- reflexivity.
    + rewrite loop_body_invalid by assumption. reflexivity.
Qed.

Lemma for_targets_stdout client n targets st w :
  stdout_lines (trace (for_targets (loop_body ctx normalizeHandle client false n)
                         targets st w))
  = progress_lines client n targets st w.
Proof.
  revert st w. induction targets as [|input rest IH]; intros st w.
  - reflexivity.
  - rewrite for_targets_cons. cbv zeta.
    rewrite trace_triple, stdout_lines_app, loop_body_stdout, IH. reflexivity.
Qed.

Lemma follow_and_pace_without_usernames client json n isUserId uid display st w :
  follow_and_pace ctx (without_usernames client) json n isUserId uid display st w
  = follow_and_pace ctx client json n isUserId uid display st w.
Proof.
  rewrite !follow_and_pace_run. cbv zeta. simpl.
  destruct (op_success (fst (followUser client uid w))); reflexivity.
Qed.

Lemma loop_body_without_usernames client json n input st w :
  loop_body ctx normalizeHandle (without_usernames client) json n input st w
  = loop_body ctx normalizeHandle client json n input st w.
Proof.
  unfold loop_body. destruct (numeric_re input).
  - apply follow_and_pace_without_usernames.
  - unfold bind, call_normalizeHandle, await.
    destruct (truthy_value (normalizeHandle input)) as [h|]; [|reflexivity].
    simpl getUserIdByUsername.
    destruct (getUserIdByUsername client h w) as [l w'].
    destruct (lookup_success l), (truthy_value (lookup_userId l));
      try reflexivity.
    rewrite follow_and_pace_without_usernames. reflexivity.
Qed.

Lemma for_targets_ext body body' targets st (w : W) :
  (forall input st' w', body input st' w' = body' input st' w') ->
  for_targets body targets st w = for_targets body' targets st w.
Proof.
  intros H. revert st w. induction targets as [|input rest IH]; intros st w.
  - reflexivity.
  - rewrite !for_targets_cons. cbv zeta. rewrite H, !IH. reflexivity.
Qed.

Lemma batch_without_usernames targets json opts w :
  batchFollowAction ctx normalizeHandle
    (fun cookies timeoutMs => without_usernames (newTwitterClient cookies timeoutMs))
    targets json opts w
  = batchFollowAction ctx normalizeHandle newTwitterClient targets json opts w.
Proof.
  unfold batchFollowAction. unfold bind at 1 6. unfold await.
  destruct (resolveCredentialsFromOptions ctx opts w) as [[cookies warnings] w1].
  simpl fst. simpl snd. unfold bind at 1 5.
  destruct (for_of W warnings _ w1) as [[u w2] t].
  destruct (credentials_missing cookies); [reflexivity|].
  unfold bind at 1 4.
  rewrite (for_targets_ext _
             (loop_body ctx normalizeHandle
                (newTwitterClient cookies (resolveTimeoutFromOptions ctx opts))
                json (length targets)));
    [reflexivity|].
  intros input st' w'. apply loop_body_without_usernames.
Qed.

(** C8 (as amended). In the single-target commands, when the mutation
    succeeds and its result carries a non-empty username, the one line on
    stdout is [Now following @username], respectively
    [Unfollowed @username], whatever name or id was supplied.  The batch
    follow command does not look at the username of the mutation result: it
    runs identically (same report, same world, same trace) when the username
    is removed from every result of [followUser].  Without [--json] what it
    writes to stdout is, target after target, the line of each target whose
    follow call succeeded: [Followed] and the numeric input itself, or
    [Followed @] and the normalized handle, with [(ID: ...)] around the id
    that the lookup of that handle returned. *)
Theorem success_line_names_the_user targets usernameOrId opts w :
  credentials_missing (cookies_of opts w) = false ->
  let client := client_of opts w in
  let rr := resolveUserId ctx normalizeHandle client usernameOrId
              (world_after_credentials opts w) in
  (forall r u,
     value rr = Some r ->
     op_success (fst (follow client (userId r) (world rr))) = true ->
     truthy_value (op_username (fst (follow client (userId r) (world rr))))
     = Some u ->
     stdout_lines (trace (followAction ctx normalizeHandle newTwitterClient
                            usernameOrId opts w))
     = [(p ctx "ok" ++ "Now following " ++ "@" ++ u)%string])
  /\ (forall r u,
        value rr = Some r ->
        op_success (fst (unfollow client (userId r) (world rr))) = true ->
        truthy_value (op_username (fst (unfollow client (userId r) (world rr))))
        = Some u ->
        stdout_lines (trace (unfollowAction ctx normalizeHandle newTwitterClient
                               usernameOrId opts w))
        = [(p ctx "ok" ++ "Unfollowed " ++ "@" ++ u)%string])
  /\ (forall line,
        In line (stdout_lines (trace (batchFollowAction ctx normalizeHandle
                                        newTwitterClient targets false opts w))) ->
        exists input, In input targets /\ progress_line_of input line)
  /\ stdout_lines (trace (batchFollowAction ctx normalizeHandle newTwitterClient
                            targets false opts w))
     = progress_lines client (length targets) targets (mkBatch [] 0)
         (world_after_credentials opts w)
  /\ (forall json,
        batchFollowAction ctx normalizeHandle
          (fun cookies timeoutMs =>
             without_usernames (newTwitterClient cookies timeoutMs))
          targets json opts w
        = batchFollowAction ctx normalizeHandle newTwitterClient
            targets json opts w).
Proof.
  intros Hc client rr. split; [|split; [|split; [|split]]].
  - intros r u Hr Hs Hu. rewrite (followAction_valid usernameOrId opts w Hc).
    apply (single_outcome_success_line (@follow W) NetFollow) with (r := r);
      auto.
  - intros r u Hr Hs Hu. rewrite (unfollowAction_valid usernameOrId opts w Hc).
    apply (single_outcome_success_line (@unfollow W) NetUnfollow) with (r := r);
      auto.
  - apply batch_plain_lines.
  - rewrite (batchFollowAction_valid targets false opts w Hc). cbv zeta.
    rewrite trace_triple, !stdout_lines_app, stdout_lines_warnings, app_nil_r.
    unfold batch_driver. simpl app. apply for_targets_stdout.
  - intros json. apply batch_without_usernames.
Qed.

(** *** The scenario of the spec *)

(** C9. Batch follow of [alice] and [123456], where [alice] normalizes to
    itself, its lookup succeeds with id [999], and both follow calls succeed:
    the command ends with status 0 and the report
    [{results: [{input: "@alice", userId: "999", success: true},
                {input: "123456", userId: "123456", success: true}],
      failures: 0}]. *)
Theorem scenario_alice_then_id json opts w :
  credentials_missing (cookies_of opts w) = false ->
  normalizeHandle "alice" = Some "alice" ->
  let client := client_of opts w in
  let lk := getUserIdByUsername client "alice" (world_after_credentials opts w) in
  lookup_success (fst lk) = true ->
  lookup_userId (fst lk) = Some "999" ->
  let f1 := followUser client "999" (snd lk) in
  op_success (fst f1) = true ->
  let f2 := followUser client "123456" (snd f1) in
  op_success (fst f2) = true ->
  value (batchFollowAction ctx normalizeHandle newTwitterClient
           ["alice"; "123456"] json opts w)
  = mkBatchExit 0
      (Some (mkBatch [mkRecord "@alice" (Some "999") true None;
                      mkRecord "123456" (Some "123456") true None] 0)).
Proof.
  intros Hc Hh client lk Hs Hu f1 H1 f2 H2.
  rewrite (batchFollowAction_valid _ json opts w Hc). cbv zeta.
  rewrite value_triple. unfold batch_driver.
  fold (cookies_of opts w). fold (client_of opts w).
  fold (world_after_credentials opts w). fold client.
  rewrite for_targets_cons. cbv zeta. rewrite value_triple.
  assert (Hh' : truthy_value (normalizeHandle "alice") = Some "alice").
  { rewrite Hh. reflexivity. }
  assert (Hu' : truthy_value (lookup_userId (fst lk)) = Some "999").
  { rewrite Hu. reflexivity. }
  rewrite (loop_body_resolved client json _ "alice" _ _ "alice" "999"
             eq_refl Hh' Hs Hu').
  cbv zeta. rewrite value_triple, world_triple.
  rewrite follow_and_pace_run. cbv zeta. rewrite value_triple, world_triple.
  fold lk. fold f1. rewrite H1.
  rewrite for_targets_cons. cbv zeta. rewrite value_triple.
  rewrite (loop_body_numeric client json _ "123456" _ _ eq_refl).
  rewrite follow_and_pace_run. cbv zeta. rewrite value_triple.
  fold f2. rewrite H2. reflexivity.
Qed.

(** *** The JSON document *)

(** C10 (as amended). With valid credentials and [--json], the batch follow
    command always prints the JSON document of its report, as the only line
    on stdout and the last event before the process ends, whether targets
    failed or not; the exit status is then 1 when [failures > 0] and 0
    otherwise. *)
Theorem json_document_precedes_exit targets opts w :
  credentials_missing (cookies_of opts w) = false ->
  exists st before,
    report (value (batchFollowAction ctx normalizeHandle newTwitterClient
                     targets true opts w)) = Some st
    /\ trace (batchFollowAction ctx normalizeHandle newTwitterClient
                targets true opts w) = before ++ [Stdout (JSON_stringify st)]
    /\ stdout_lines before = []
    /\ exit_status (value (batchFollowAction ctx normalizeHandle newTwitterClient
                             targets true opts w))
       = (if 0 <? failures st then 1 else 0).
Proof.
  intros Hc. rewrite (batchFollowAction_valid targets true opts w Hc). cbv zeta.
  rewrite value_triple, trace_triple. simpl report. simpl exit_status.
  eexists. eexists. split; [reflexivity|].
  split; [rewrite app_assoc; reflexivity|].
  split; [|reflexivity].
  rewrite stdout_lines_app, stdout_lines_warnings, driver_json_silent.
  reflexivity.
Qed.

(** *** More on [resolveUserId] *)

Lemma stderr_lines_app t t' :
  stderr_lines (t ++ t') = stderr_lines t ++ stderr_lines t'.
Proof.
  induction t as [|e t IH]; simpl; [reflexivity|].
  destruct e; simpl; rewrite IH; reflexivity.
Qed.

Lemma count_events_app f t t' :
  count_events f (t ++ t') = count_events f t + count_events f t'.
Proof.
  unfold count_events. rewrite filter_app, length_app. reflexivity.
Qed.

Lemma count_events_warnings f opts w :
  (forall l, f (Stderr l) = false) ->
  count_events f (warning_lines opts w) = 0.
Proof.
  intros Hf. unfold count_events, warning_lines.
  induction (warnings_of opts w); simpl; [reflexivity|].
  rewrite Hf. assumption.
Qed.

Lemma stderr_lines_warnings opts w :
  stderr_lines (warning_lines opts w)
  = map (fun warning => (p ctx "warn" ++ warning)%string) (warnings_of opts w).
Proof.
  unfold warning_lines. induction (warnings_of opts w); simpl; congruence.
Qed.

Lemma resolveUserId_failed_run client input w h :
  numeric_re input = false ->
  truthy_value (normalizeHandle input) = Some h ->
  lookup_success (fst (getUserIdByUsername client h w))
  && truthy (lookup_userId (fst (getUserIdByUsername client h w))) = false ->
  resolveUserId ctx normalizeHandle client input w
  = (None, snd (getUserIdByUsername client h w),
     [CallNormalize input; NetLookup h;
      Stderr (p ctx "err" ++ "Failed to find user @" ++ h ++ ": "
              ++ nullish_or (lookup_error (fst (getUserIdByUsername client h w)))
                   "Unknown error")]).
Proof.
  intros Hn Hh Hl. unfold resolveUserId. rewrite Hn.
  unfold bind, call_normalizeHandle, await. rewrite Hh.
  destruct (getUserIdByUsername client h w) as [l w']. simpl in *.
  destruct (lookup_success l); simpl in Hl.
  - destruct (lookup_userId l) as [[|c u]|]; simpl in *; try discriminate;
      reflexivity.
  - destruct (truthy_value (lookup_userId l)); reflexivity.
Qed.

Lemma resolveUserId_found_run client input w h id :
  numeric_re input = false ->
  truthy_value (normalizeHandle input) = Some h ->
  lookup_success (fst (getUserIdByUsername client h w)) = true ->
  truthy_value (lookup_userId (fst (getUserIdByUsername client h w))) = Some id ->
  resolveUserId ctx normalizeHandle client input w
  = (Some (mkResolved id (lookup_username (fst (getUserIdByUsername client h w)))),
     snd (getUserIdByUsername client h w),
     [CallNormalize input; NetLookup h]).
Proof.
  intros Hn Hh Hs Hu. unfold resolveUserId. rewrite Hn.
  unfold bind, call_normalizeHandle, await. rewrite Hh.
  destruct (getUserIdByUsername client h w) as [l w']. simpl in *.
  rewrite Hs, Hu. reflexivity.
Qed.

Lemma resolveUserId_resolution client input w :
  resolution input
    (value (resolveUserId ctx normalizeHandle client input w))
    (trace (resolveUserId ctx normalizeHandle client input w)).
Proof.
  destruct (numeric_re input) eqn:Hn.
  - rewrite resolveUserId_numeric by assumption.
    rewrite value_triple, trace_triple. apply res_numeric. assumption.
  - destruct (truthy_value (normalizeHandle input)) as [h|] eqn:Hh.
    + destruct (lookup_success (fst (getUserIdByUsername client h w))
                && truthy (lookup_userId (fst (getUserIdByUsername client h w))))
        eqn:Hl.
      * apply andb_prop in Hl. destruct Hl as [Hs Hu].
        apply truthy_value_some in Hu. destruct Hu as [id Hu].
        rewrite (resolveUserId_found_run client input w h id Hn Hh Hs Hu).
        rewrite value_triple, trace_triple. apply res_found; assumption.
      * rewrite (resolveUserId_failed_run client input w h Hn Hh Hl).
        rewrite value_triple, trace_triple.
        apply res_lookup_failed; assumption.
    + rewrite resolveUserId_invalid by assumption.
      rewrite value_triple, trace_triple. apply res_invalid; assumption.
Qed.

(** X1. For every input, [resolveUserId] writes nothing to stdout, makes no
    follow or unfollow call and at most one lookup (it never retries), and it
    returns [null] exactly when it has printed one diagnostic on stderr: a
    result comes with no diagnostic, [null] with exactly one. *)
Theorem resolveUserId_null_iff_diagnostic client input w :
  let r := resolveUserId ctx normalizeHandle client input w in
  stdout_lines (trace r) = []
  /\ count_events is_follow_call (trace r) = 0
  /\ count_events is_unfollow_call (trace r) = 0
  /\ count_events is_lookup (trace r) <= 1
  /\ (value r = None <-> length (stderr_lines (trace r)) = 1)
  /\ (value r <> None <-> stderr_lines (trace r) = []).
Proof.
  cbv zeta. pose proof (resolveUserId_resolution client input w) as H.
  destruct H; unfold count_events; simpl;
    repeat split; try lia; try congruence; try discriminate; auto.
Qed.

(** X2. A handle whose lookup fails, be it that the lookup reports failure or
    that it reports success without a (non-empty) user id, makes
    [resolveUserId] return [null] after that single lookup, in the world the
    lookup left, with the one diagnostic [Failed to find user @handle:]
    followed by the lookup's error, or by [Unknown error] when it has none. *)
Theorem lookup_failure_is_a_resolution_error client input w h :
  numeric_re input = false ->
  truthy_value (normalizeHandle input) = Some h ->
  let lk := getUserIdByUsername client h w in
  lookup_success (fst lk) = false \/ truthy (lookup_userId (fst lk)) = false ->
  resolveUserId ctx normalizeHandle client input w
  = (None, snd lk,
     [CallNormalize input; NetLookup h;
      Stderr (p ctx "err" ++ "Failed to find user @" ++ h ++ ": "
              ++ nullish_or (lookup_error (fst lk)) "Unknown error")]).
Proof.
  intros Hn Hh lk Hl. apply resolveUserId_failed_run; try assumption.
  fold lk. destruct Hl as [-> | ->]; [reflexivity|apply andb_false_r].
Qed.

(** *** More on the single-target commands *)

Lemma resolution_counts input v t :
  resolution input v t ->
  stdout_lines t = []
  /\ count_events is_follow_call t = 0
  /\ count_events is_unfollow_call t = 0
  /\ count_events is_lookup t <= 1
  /\ match v with
     | Some _ => stderr_lines t = []
     | None => exists line, stderr_lines t = [line]
     end.
Proof.
  intros H. destruct H; unfold count_events; simpl; repeat split; eauto.
Qed.

Lemma single_outcome_count (f : Event -> bool) mutate e verb_ok verb_ko
    usernameOrId opts w :
  (forall l, f (Stderr l) = false) ->
  (forall l, f (Stdout l) = false) ->
  count_events f (trace (single_outcome mutate e verb_ok verb_ko usernameOrId opts w))
  = count_events f
      (trace (resolveUserId ctx normalizeHandle (client_of opts w) usernameOrId
                (world_after_credentials opts w)))
    + match value (resolveUserId ctx normalizeHandle (client_of opts w)
                     usernameOrId (world_after_credentials opts w)) with
      | Some r => if f (e (userId r)) then 1 else 0
      | None => 0
      end.
Proof.
  intros Herr Hout. unfold single_outcome.
  destruct (value _) as [r|].
  - destruct (op_success _); rewrite trace_triple, !count_events_app;
      rewrite count_events_warnings by assumption;
      unfold count_events at 2; simpl; rewrite ?Herr, ?Hout;
      destruct (f (e (userId r))); reflexivity.
  - rewrite trace_triple, count_events_app.
    rewrite count_events_warnings by assumption. lia.
Qed.

Lemma single_outcome_one_line mutate e verb_ok verb_ko usernameOrId opts w :
  (forall id, stdout_lines [e id] = []) ->
  (forall id, stderr_lines [e id] = []) ->
  one_outcome_line opts w
    (single_outcome mutate e verb_ok verb_ko usernameOrId opts w).
Proof.
  intros Ho He. unfold one_outcome_line, single_outcome.
  destruct (resolution_counts _ _ _
              (resolveUserId_resolution (client_of opts w) usernameOrId
                 (world_after_credentials opts w))) as [Hout [_ [_ [_ Herr]]]].
  destruct (value _) as [r|].
  - destruct (op_success _); rewrite value_triple, trace_triple;
      change (e (userId r) :: ?x) with ([e (userId r)] ++ x);
      rewrite !stdout_lines_app, !stderr_lines_app, Hout, Herr, Ho, He,
        stdout_lines_warnings; simpl.
    + left. rewrite app_nil_r. auto.
    + right. eauto.
  - right. rewrite value_triple, trace_triple.
    rewrite stdout_lines_app, stderr_lines_app, Hout, stdout_lines_warnings.
    destruct Herr as [line ->]. eauto.
Qed.

Lemma missing_one_line opts w w' :
  one_outcome_line opts w (1, w', warning_lines opts w ++ [missing_line]).
Proof.
  right. rewrite value_triple, trace_triple.
  rewrite stdout_lines_app, stderr_lines_app, stdout_lines_warnings.
  unfold missing_line. simpl. eauto.
Qed.

(** X3. With valid credentials, a handle that normalizes to [h] and whose
    lookup succeeds with the id [id] makes the single-target commands do, in
    this order and after the warnings: the normalization, one lookup of [h],
    one follow (respectively unfollow) of [id] in the world the lookup left,
    and one line of output; the exit status is 0 exactly when that call
    succeeded. *)
Theorem single_target_mutates_the_looked_up_id input opts w h id :
  credentials_missing (cookies_of opts w) = false ->
  numeric_re input = false ->
  truthy_value (normalizeHandle input) = Some h ->
  let client := client_of opts w in
  let lk := getUserIdByUsername client h (world_after_credentials opts w) in
  lookup_success (fst lk) = true ->
  truthy_value (lookup_userId (fst lk)) = Some id ->
  (exists line,
     is_console line = true
     /\ followAction ctx normalizeHandle newTwitterClient input opts w
        = ((if op_success (fst (follow client id (snd lk))) then 0 else 1),
           snd (follow client id (snd lk)),
           warning_lines opts w
             ++ [CallNormalize input; NetLookup h; NetFollow id; line]))
  /\ (exists line,
        is_console line = true
        /\ unfollowAction ctx normalizeHandle newTwitterClient input opts w
           = ((if op_success (fst (unfollow client id (snd lk))) then 0 else 1),
              snd (unfollow client id (snd lk)),
              warning_lines opts w
                ++ [CallNormalize input; NetLookup h; NetUnfollow id; line])).
Proof.
  intros Hc Hn Hh client lk Hs Hu.
  rewrite (followAction_valid input opts w Hc).
  rewrite (unfollowAction_valid input opts w Hc).
  unfold single_outcome. fold client.
  rewrite (resolveUserId_found_run client input _ h id Hn Hh Hs Hu).
  fold lk. rewrite !value_triple, !world_triple, !trace_triple. simpl userId.
  split.
  - destruct (op_success (fst (follow client id (snd lk))));
      eexists; (split; [|reflexivity]); reflexivity.
  - destruct (op_success (fst (unfollow client id (snd lk))));
      eexists; (split; [|reflexivity]); reflexivity.
Qed.

(** X4. Whatever happens next, each of the three commands first prints the
    warnings of the credential resolver, in their order, on stderr with the
    [warn] prefix: its trace starts with them, and they are the first lines
    of stderr. *)
Theorem warnings_come_first targets json usernameOrId opts w :
  (exists rest,
     trace (followAction ctx normalizeHandle newTwitterClient usernameOrId opts w)
     = warning_lines opts w ++ rest)
  /\ (exists rest,
        trace (unfollowAction ctx normalizeHandle newTwitterClient
                 usernameOrId opts w)
        = warning_lines opts w ++ rest)
  /\ (exists rest,
        trace (batchFollowAction ctx normalizeHandle newTwitterClient
                 targets json opts w)
        = warning_lines opts w ++ rest)
  /\ stderr_lines (warning_lines opts w)
     = map (fun warning => (p ctx "warn" ++ warning)%string) (warnings_of opts w).
Proof.
  destruct (credentials_missing (cookies_of opts w)) eqn:Hc.
  - rewrite (followAction_missing usernameOrId opts w Hc).
    rewrite (unfollowAction_missing usernameOrId opts w Hc).
    rewrite (batchFollowAction_missing targets json opts w Hc).
    rewrite !trace_triple. repeat split; eauto using stderr_lines_warnings.
  - rewrite (followAction_valid usernameOrId opts w Hc).
    rewrite (unfollowAction_valid usernameOrId opts w Hc).
    rewrite (batchFollowAction_valid targets json opts w Hc). cbv zeta.
    rewrite trace_triple.
    destruct (single_outcome_trace (@follow W) NetFollow "Now following "
                "Failed to follow " usernameOrId opts w) as [t1 ->].
    destruct (single_outcome_trace (@unfollow W) NetUnfollow "Unfollowed "
                "Failed to unfollow " usernameOrId opts w) as [t2 ->].
    repeat split; eauto using stderr_lines_warnings.
Qed.

(** X5. The single-target commands report every outcome with exactly one
    line: either the status is 0, stdout has exactly one line and stderr
    only the warnings, or the status is 1, stdout is empty and stderr has the
    warnings and exactly one diagnostic (missing credentials, invalid
    username, failed lookup or failed mutation). *)
Theorem single_target_reports_with_one_line usernameOrId opts w :
  one_outcome_line opts w
    (followAction ctx normalizeHandle newTwitterClient usernameOrId opts w)
  /\ one_outcome_line opts w
       (unfollowAction ctx normalizeHandle newTwitterClient usernameOrId opts w).
Proof.
  destruct (credentials_missing (cookies_of opts w)) eqn:Hc.
  - rewrite (followAction_missing usernameOrId opts w Hc).
    rewrite (unfollowAction_missing usernameOrId opts w Hc).
    split; apply missing_one_line.
  - rewrite (followAction_valid usernameOrId opts w Hc).
    rewrite (unfollowAction_valid usernameOrId opts w Hc).
    split; apply single_outcome_one_line; reflexivity.
Qed.

(** X6. The [follow] command makes a follow call exactly when the
    credentials are present and the target resolves, then exactly one, and
    never an unfollow call; the [unfollow] command likewise with the roles
    exchanged; neither makes more than one lookup. *)
Theorem single_target_calls usernameOrId opts w :
  let reached :=
    negb (credentials_missing (cookies_of opts w))
    && match value (resolveUserId ctx normalizeHandle (client_of opts w)
                      usernameOrId (world_after_credentials opts w)) with
       | Some _ => true
       | None => false
       end in
  let f := trace (followAction ctx normalizeHandle newTwitterClient
                    usernameOrId opts w) in
  let u := trace (unfollowAction ctx normalizeHandle newTwitterClient
                    usernameOrId opts w) in
  count_events is_follow_call f = (if reached then 1 else 0)
  /\ count_events is_unfollow_call f = 0
  /\ count_events is_unfollow_call u = (if reached then 1 else 0)
  /\ count_events is_follow_call u = 0
  /\ count_events is_lookup f <= 1
  /\ count_events is_lookup u <= 1.
Proof.
  cbv zeta. destruct (credentials_missing (cookies_of opts w)) eqn:Hc.
  - rewrite (followAction_missing usernameOrId opts w Hc).
    rewrite (unfollowAction_missing usernameOrId opts w Hc).
    rewrite !trace_triple, !count_events_app.
    rewrite !count_events_warnings by reflexivity.
    unfold count_events, missing_line. simpl. repeat split; lia.
  - rewrite (followAction_valid usernameOrId opts w Hc).
    rewrite (unfollowAction_valid usernameOrId opts w Hc).
    rewrite !single_outcome_count by reflexivity.
    destruct (resolution_counts _ _ _
                (resolveUserId_resolution (client_of opts w) usernameOrId
                   (world_after_credentials opts w)))
      as [_ [Hf [Hu [Hl _]]]].
    rewrite Hf, Hu. simpl negb. simpl andb.
    destruct (value _); simpl; repeat split; lia.
Qed.



(** *** More on the batch loop *)

Lemma follow_and_pace_iteration client json n isUserId uid display st w :
  let res := fst (followUser client uid w) in
  value (follow_and_pace ctx client json n isUserId uid display st w)
  = mkBatch (results st ++ [follow_record display uid res])
      (failures st + (if rec_success (follow_record display uid res) then 0 else 1))
  /\ trace (follow_and_pace ctx client json n isUserId uid display st w)
     = follow_events json isUserId n uid display res.
Proof.
  cbv zeta. rewrite follow_and_pace_run. cbv zeta.
  rewrite value_triple, trace_triple. unfold follow_record, follow_events, quiet.
  destruct (op_success (fst (followUser client uid w))); simpl; split;
    try reflexivity; unfold record_success; simpl; rewrite Nat.add_0_r;
    reflexivity.
Qed.

Lemma loop_body_iteration client json n input st w :
  exists r,
    value (loop_body ctx normalizeHandle client json n input st w)
    = mkBatch (results st ++ [r])
        (failures st + (if rec_success r then 0 else 1))
    /\ iteration json n input r
         (trace (loop_body ctx normalizeHandle client json n input st w)).
Proof.
  destruct (numeric_re input) eqn:Hn.
  - rewrite loop_body_numeric by assumption.
    destruct (follow_and_pace_iteration client json n true input input st w)
      as [Hv Ht].
    eexists. split; [exact Hv|]. rewrite Ht. apply iter_numeric. assumption.
  - destruct (truthy_value (normalizeHandle input)) as [h|] eqn:Hh.
    + destruct (lookup_success (fst (getUserIdByUsername client h w))
                && truthy (lookup_userId (fst (getUserIdByUsername client h w))))
        eqn:Hl.
      * apply andb_prop in Hl. destruct Hl as [Hs Hu].
        apply truthy_value_some in Hu. destruct Hu as [uid Hu].
        rewrite (loop_body_resolved client json n input st w h uid Hn Hh Hs Hu).
        cbv zeta. rewrite value_triple, trace_triple.
        match goal with
        | |- context [follow_and_pace ?c ?cl ?j ?k ?b ?u ?d ?s ?x] =>
            destruct (follow_and_pace_iteration cl j k b u d s x) as [Hv Ht]
        end.
        eexists. split; [exact Hv|]. rewrite Ht.
        apply iter_resolved; assumption.
      * rewrite (loop_body_lookup_failed client json n input st w h Hn Hh Hl).
        cbv zeta. rewrite value_triple, trace_triple.
        eexists (mkRecord ("@" ++ h) None false _).
        split; [reflexivity|]. apply iter_lookup_failed; assumption.
    + rewrite loop_body_invalid by assumption.
      rewrite value_triple, trace_triple.
      exists (mkRecord input None false (Some "Invalid handle format")).
      split; [reflexivity|]. apply iter_invalid; assumption.
Qed.

(** The loop, iteration by iteration: the records appended and the traces,
    paired. *)
Lemma for_targets_iterations client json n targets st w :
  exists pairs,
    results (value (for_targets (loop_body ctx normalizeHandle client json n)
                      targets st w)) = results st ++ map fst pairs
    /\ failures (value (for_targets (loop_body ctx normalizeHandle client json n)
                          targets st w))
       = failures st + count_failed (map fst pairs)
    /\ trace (for_targets (loop_body ctx normalizeHandle client json n)
                targets st w) = concat (map snd pairs)
    /\ Forall2 (fun input pr => iteration json n input (fst pr) (snd pr))
         targets pairs.
Proof.
  revert st w. induction targets as [|input rest IH]; intros st w.
  - exists []. unfold value, trace, count_failed. simpl. rewrite app_nil_r.
    repeat split; auto.
  - rewrite for_targets_cons. cbv zeta.
    destruct (loop_body_iteration client json n input st w) as [r [Hr Hi]].
    set (b := loop_body ctx normalizeHandle client json n input st w) in *.
    destruct (IH (value b) (world b)) as [pairs [H1 [H2 [H3 H4]]]].
    set (r' := for_targets _ rest (value b) (world b)) in *.
    rewrite value_triple, trace_triple.
    exists ((r, trace b) :: pairs). rewrite H1, H2, H3, Hr. simpl.
    repeat split.
    + rewrite <- app_assoc. reflexivity.
    + change (r :: map fst pairs) with ([r] ++ map fst pairs).
      rewrite count_failed_app. unfold count_failed. simpl.
      destruct (rec_success r); simpl; lia.
    + constructor; assumption.
Qed.

Lemma pace_counts n :
  stdout_lines (pace n) = [] /\ stderr_lines (pace n) = []
  /\ count_events is_follow_call (pace n) = 0
  /\ count_events is_lookup (pace n) = 0
  /\ count_events is_unfollow_call (pace n) = 0.
Proof. unfold pace. destruct (1 <? n); repeat split. Qed.

(** What one iteration contributes. *)
Lemma iteration_facts json n input r seg :
  iteration json n input r seg ->
  record_well_formed r
  /\ count_events is_follow_call seg = (if has_userId r then 1 else 0)
  /\ count_events is_lookup seg = (if numeric_re input then 0
                                   else if truthy (normalizeHandle input) then 1
                                        else 0)
  /\ count_events is_unfollow_call seg = 0
  /\ length (stdout_lines seg)
     = (if json then 0 else if rec_success r then 1 else 0)
  /\ length (stderr_lines seg)
     = (if json then 0 else if rec_success r then 0 else 1).
Proof.
  intros H.
  destruct H as [res Hn| Hn Hh | h lk Hn Hh Hl | h uid res Hn Hh];
    rewrite ?Hn;
    try (apply truthy_value_none in Hh; rewrite Hh);
    try (assert (Ht : truthy (normalizeHandle input) = true)
           by (destruct (normalizeHandle input) as [[|c x]|];
               simpl in *; congruence);
         rewrite Ht);
    unfold record_well_formed, follow_record, follow_events, quiet, pace,
      count_events, has_userId, has_error;
    try destruct (op_success res); destruct json; try destruct (1 <? n);
    simpl; repeat split; try congruence; try discriminate; auto.
Qed.

Lemma iterations_facts json n targets pairs :
  Forall2 (fun input pr => iteration json n input (fst pr) (snd pr))
    targets pairs ->
  Forall record_well_formed (map fst pairs)
  /\ count_events is_follow_call (concat (map snd pairs))
     = length (filter has_userId (map fst pairs))
  /\ count_events is_lookup (concat (map snd pairs))
     = length (filter (fun t => negb (numeric_re t) && truthy (normalizeHandle t))
                 targets)
  /\ count_events is_unfollow_call (concat (map snd pairs)) = 0
  /\ length (stdout_lines (concat (map snd pairs)))
     + (if json then 0 else count_failed (map fst pairs))
     = (if json then 0 else length (map fst pairs))
  /\ length (stderr_lines (concat (map snd pairs)))
     = (if json then 0 else count_failed (map fst pairs)).
Proof.
  induction 1 as [|input pr targets pairs Hi _ IH]; simpl.
  - unfold count_events, count_failed. destruct json; simpl; repeat split; auto.
  - destruct IH as [I1 [I2 [I3 [I4 [I5 I6]]]]].
    destruct (iteration_facts json n input (fst pr) (snd pr) Hi)
      as [F1 [F2 [F3 [F4 [F5 F6]]]]].
    rewrite !count_events_app, stdout_lines_app, stderr_lines_app, !length_app.
    rewrite F2, F3, F4, F5, F6, I2, I3, I4, I6.
    unfold count_failed in *. simpl.
    split; [constructor; assumption|].
    destruct (has_userId (fst pr)), (numeric_re input),
      (truthy (normalizeHandle input)), json, (rec_success (fst pr));
      simpl in *; repeat split; try lia.
Qed.

(** The batch command's report, trace and iterations, with valid
    credentials. *)
Lemma batch_iterations targets json opts w :
  credentials_missing (cookies_of opts w) = false ->
  exists pairs,
    batchFollowAction ctx normalizeHandle newTwitterClient targets json opts w
    = (mkBatchExit (if 0 <? count_failed (map fst pairs) then 1 else 0)
         (Some (mkBatch (map fst pairs) (count_failed (map fst pairs)))),
       world (batch_driver ctx normalizeHandle newTwitterClient targets json opts w),
       warning_lines opts w ++ concat (map snd pairs)
         ++ (if json
             then [Stdout (JSON_stringify
                             (mkBatch (map fst pairs)
                                (count_failed (map fst pairs))))]
             else []))
    /\ Forall2 (fun input pr =>
                  iteration json (length targets) input (fst pr) (snd pr))
         targets pairs.
Proof.
  intros Hc. rewrite (batchFollowAction_valid targets json opts w Hc). cbv zeta.
  unfold batch_driver at 1 2 3 4 5.
  match goal with
  | |- context [for_targets (loop_body _ _ ?cl ?j ?k) ?l ?s ?x] =>
      destruct (for_targets_iterations cl j k l s x) as [pairs [H1 [H2 [H3 H4]]]];
      set (d := for_targets (loop_body ctx normalizeHandle cl j k) l s x) in *
  end.
  simpl in H1, H2. exists pairs. split; [|assumption].
  rewrite H3. destruct (value d) as [rs fl] eqn:Hd. simpl in H1, H2. subst.
  reflexivity.
Qed.

Lemma followed_ids_app t t' :
  followed_ids (t ++ t') = followed_ids t ++ followed_ids t'.
Proof.
  induction t as [|e t IH]; simpl; [reflexivity|].
  destruct e; simpl; rewrite IH; reflexivity.
Qed.

Lemma looked_up_app t t' : looked_up (t ++ t') = looked_up t ++ looked_up t'.
Proof.
  induction t as [|e t IH]; simpl; [reflexivity|].
  destruct e; simpl; rewrite IH; reflexivity.
Qed.

Lemma calls_of_warnings opts w :
  followed_ids (warning_lines opts w) = []
  /\ looked_up (warning_lines opts w) = [].
Proof.
  unfold warning_lines. induction (warnings_of opts w); simpl; auto.
Qed.

Lemma iteration_calls json n input r seg :
  iteration json n input r seg ->
  followed_ids seg = record_ids [r]
  /\ looked_up seg = handles_to_look_up [input].
Proof.
  intros H.
  destruct H as [res Hn| Hn Hh | h lk Hn Hh Hl | h uid res Hn Hh];
    unfold handles_to_look_up, record_ids, follow_record, follow_events,
      quiet, pace; simpl; rewrite Hn, ?Hh;
    try destruct (op_success res); destruct json; try destruct (1 <? n);
    simpl; split; reflexivity.
Qed.

Lemma iterations_calls json n targets pairs :
  Forall2 (fun input pr => iteration json n input (fst pr) (snd pr))
    targets pairs ->
  followed_ids (concat (map snd pairs)) = record_ids (map fst pairs)
  /\ looked_up (concat (map snd pairs)) = handles_to_look_up targets.
Proof.
  induction 1 as [|input pr targets pairs Hi _ IH]; simpl; [auto|].
  destruct IH as [I1 I2].
  destruct (iteration_calls json n input (fst pr) (snd pr) Hi) as [F1 F2].
  rewrite followed_ids_app, looked_up_app, F1, F2, I1, I2.
  unfold record_ids, handles_to_look_up. simpl. rewrite !app_nil_r. auto.
Qed.

(** X8. Every record of the report of the batch command is well formed: a
    successful record carries the user id and no error, and a record without
    user id (the target never reached the follow call) is a failure with an
    error message. *)
Theorem batch_records_are_well_formed targets json opts w :
  match report (value (batchFollowAction ctx normalizeHandle newTwitterClient
                         targets json opts w)) with
  | Some st => Forall record_well_formed (results st)
  | None => credentials_missing (cookies_of opts w) = true
  end.
Proof.
  destruct (credentials_missing (cookies_of opts w)) eqn:Hc.
  - rewrite (batchFollowAction_missing targets json opts w Hc). reflexivity.
  - destruct (batch_iterations targets json opts w Hc) as [pairs [-> Hi]].
    rewrite value_triple. simpl.
    apply (iterations_facts json (length targets) targets pairs Hi).
Qed.

(** X9. With valid credentials, the follow calls the batch command makes
    are exactly, and in the same order, the user ids of the records of its
    report: one call for each record that has a user id, none for the
    others; and it never makes an unfollow call. *)
Theorem batch_follow_calls_match_the_report targets json opts w :
  credentials_missing (cookies_of opts w) = false ->
  exists st,
    report (value (batchFollowAction ctx normalizeHandle newTwitterClient
                     targets json opts w)) = Some st
    /\ followed_ids (trace (batchFollowAction ctx normalizeHandle
                              newTwitterClient targets json opts w))
       = record_ids (results st)
    /\ count_events is_unfollow_call
         (trace (batchFollowAction ctx normalizeHandle newTwitterClient
                   targets json opts w)) = 0.
Proof.
  intros Hc. destruct (batch_iterations targets json opts w Hc) as [pairs [-> Hi]].
  rewrite value_triple, trace_triple. eexists. split; [reflexivity|].
  destruct (iterations_calls json _ targets pairs Hi) as [Hf _].
  destruct (iterations_facts json _ targets pairs Hi) as [_ [_ [_ [Hu _]]]].
  destruct (calls_of_warnings opts w) as [Hw _].
  rewrite !followed_ids_app, !count_events_app, Hw, Hf, Hu.
  rewrite count_events_warnings by reflexivity. simpl results.
  destruct json; simpl; rewrite app_nil_r; auto.
Qed.

(** X10. With valid credentials, the lookups the batch command makes are
    exactly, and in the same order, the normalized handles of the targets
    that are not numeric and whose handle is valid: one lookup each, never of
    a raw input, never for a numeric target, never twice. *)
Theorem batch_lookups_are_the_normalized_handles targets json opts w :
  credentials_missing (cookies_of opts w) = false ->
  looked_up (trace (batchFollowAction ctx normalizeHandle newTwitterClient
                      targets json opts w))
  = handles_to_look_up targets.
Proof.
  intros Hc. destruct (batch_iterations targets json opts w Hc) as [pairs [-> Hi]].
  rewrite trace_triple.
  destruct (iterations_calls json _ targets pairs Hi) as [_ Hl].
  destruct (calls_of_warnings opts w) as [_ Hw].
  rewrite !looked_up_app, Hw, Hl. destruct json; simpl; rewrite app_nil_r; auto.
Qed.

(** X11. With valid credentials and without [--json], the batch command
    prints exactly one line per target: on stdout for each success, on
    stderr, after the warnings, for each failure.  With [--json] the
    per-target diagnostics are suppressed: stderr has the warnings only. *)
Theorem batch_prints_one_line_per_target targets opts w :
  credentials_missing (cookies_of opts w) = false ->
  (exists st,
     report (value (batchFollowAction ctx normalizeHandle newTwitterClient
                      targets false opts w)) = Some st
     /\ length (stdout_lines (trace (batchFollowAction ctx normalizeHandle
                                       newTwitterClient targets false opts w)))
        + failures st = length targets
     /\ length (stderr_lines (trace (batchFollowAction ctx normalizeHandle
                                       newTwitterClient targets false opts w)))
        = length (warnings_of opts w) + failures st)
  /\ stderr_lines (trace (batchFollowAction ctx normalizeHandle newTwitterClient
                            targets true opts w))
     = stderr_lines (warning_lines opts w).
Proof.
  intros Hc. split.
  - destruct (batch_iterations targets false opts w Hc) as [pairs [-> Hi]].
    rewrite value_triple, trace_triple. eexists. split; [reflexivity|].
    destruct (iterations_facts false _ targets pairs Hi)
      as [_ [_ [_ [_ [Ho He]]]]].
    rewrite !stdout_lines_app, !stderr_lines_app, !length_app.
    rewrite stdout_lines_warnings, stderr_lines_warnings, length_map, He.
    simpl in *. rewrite length_map in Ho.
    rewrite <- (Forall2_length Hi) in Ho. lia.
  - destruct (batch_iterations targets true opts w Hc) as [pairs [-> Hi]].
    rewrite trace_triple.
    destruct (iterations_facts true _ targets pairs Hi)
      as [_ [_ [_ [_ [_ He]]]]].
    apply length_zero_iff_nil in He.
    rewrite !stderr_lines_app, He. simpl. rewrite app_nil_r. reflexivity.
Qed.

(** *** The [--json] flag *)

Lemma effects_app t t' : effects (t ++ t') = effects t ++ effects t'.
Proof. unfold effects. apply filter_app. Qed.

Lemma effects_warnings opts w : effects (warning_lines opts w) = [].
Proof.
  unfold effects, warning_lines. induction (warnings_of opts w); simpl; auto.
Qed.

Lemma follow_and_pace_json client json n isUserId uid display st w :
  value (follow_and_pace ctx client json n isUserId uid display st w)
  = value (follow_and_pace ctx client false n isUserId uid display st w)
  /\ world (follow_and_pace ctx client json n isUserId uid display st w)
     = world (follow_and_pace ctx client false n isUserId uid display st w)
  /\ effects (trace (follow_and_pace ctx client json n isUserId uid display st w))
     = effects (trace (follow_and_pace ctx client false n isUserId uid display st w)).
Proof.
  rewrite !follow_and_pace_run. cbv zeta.
  rewrite !value_triple, !world_triple, !trace_triple.
  destruct json, (op_success (fst (followUser client uid w))), (1 <? n);
    repeat split.
Qed.

Lemma loop_body_json client json n input st w :
  value (loop_body ctx normalizeHandle client json n input st w)
  = value (loop_body ctx normalizeHandle client false n input st w)
  /\ world (loop_body ctx normalizeHandle client json n input st w)
     = world (loop_body ctx normalizeHandle client false n input st w)
  /\ effects (trace (loop_body ctx normalizeHandle client json n input st w))
     = effects (trace (loop_body ctx normalizeHandle client false n input st w)).
Proof.
  destruct (numeric_re input) eqn:Hn.
  - rewrite !loop_body_numeric by assumption. apply follow_and_pace_json.
  - destruct (truthy_value (normalizeHandle input)) as [h|] eqn:Hh.
    + destruct (lookup_success (fst (getUserIdByUsername client h w))
                && truthy (lookup_userId (fst (getUserIdByUsername client h w))))
        eqn:Hl.
      * apply andb_prop in Hl. destruct Hl as [Hs Hu].
        apply truthy_value_some in Hu. destruct Hu as [uid Hu].
        rewrite (loop_body_resolved client json n input st w h uid Hn Hh Hs Hu).
        rewrite (loop_body_resolved client false n input st w h uid Hn Hh Hs Hu).
        cbv zeta. rewrite !value_triple, !world_triple, !trace_triple.
        match goal with
        | |- context [follow_and_pace ?c ?cl json ?k ?b ?u ?d ?s ?x] =>
            destruct (follow_and_pace_json cl json k b u d s x) as [H1 [H2 H3]]
        end.
        split; [exact H1|]. split; [exact H2|].
        match goal with
        | |- effects (?a :: ?b :: ?t) = effects (?a :: ?b :: ?t') =>
            change (effects ([a; b] ++ t) = effects ([a; b] ++ t'))
        end.
        rewrite !effects_app, H3. reflexivity.
      * rewrite (loop_body_lookup_failed client json n input st w h Hn Hh Hl).
        rewrite (loop_body_lookup_failed client false n input st w h Hn Hh Hl).
        cbv zeta. rewrite !value_triple, !world_triple, !trace_triple.
        destruct json; repeat split.
    + rewrite !loop_body_invalid by assumption.
      rewrite !value_triple, !world_triple, !trace_triple.
      destruct json; repeat split.
Qed.

Lemma for_targets_json client json n targets st w :
  value (for_targets (loop_body ctx normalizeHandle client json n) targets st w)
  = value (for_targets (loop_body ctx normalizeHandle client false n) targets st w)
  /\ world (for_targets (loop_body ctx normalizeHandle client json n) targets st w)
     = world (for_targets (loop_body ctx normalizeHandle client false n)
                targets st w)
  /\ effects (trace (for_targets (loop_body ctx normalizeHandle client json n)
                       targets st w))
     = effects (trace (for_targets (loop_body ctx normalizeHandle client false n)
                         targets st w)).
Proof.
  revert st w. induction targets as [|input rest IH]; intros st w.
  - repeat split.
  - rewrite !for_targets_cons. cbv zeta.
    rewrite !value_triple, !world_triple, !trace_triple, !effects_app.
    destruct (loop_body_json client json n input st w) as [H1 [H2 H3]].
    rewrite H1, H2, H3.
    destruct (IH (value (loop_body ctx normalizeHandle client false n input st w))
                (world (loop_body ctx normalizeHandle client false n input st w)))
      as [I1 [I2 I3]].
    rewrite I1, I2, I3. auto.
Qed.

(** X12. [--json] changes what the batch command prints and nothing else:
    with and without it, from the same options and world, the command ends
    with the same exit status and report, leaves the same world, and makes
    the same calls and delays in the same order. *)
Theorem json_flag_only_changes_the_output targets opts w :
  value (batchFollowAction ctx normalizeHandle newTwitterClient targets true opts w)
  = value (batchFollowAction ctx normalizeHandle newTwitterClient
             targets false opts w)
  /\ world (batchFollowAction ctx normalizeHandle newTwitterClient
              targets true opts w)
     = world (batchFollowAction ctx normalizeHandle newTwitterClient
                targets false opts w)
  /\ effects (trace (batchFollowAction ctx normalizeHandle newTwitterClient
                       targets true opts w))
     = effects (trace (batchFollowAction ctx normalizeHandle newTwitterClient
                         targets false opts w)).
Proof.
  destruct (credentials_missing (cookies_of opts w)) eqn:Hc.
  - rewrite !(batchFollowAction_missing targets _ opts w Hc). auto.
  - rewrite !(batchFollowAction_valid targets _ opts w Hc). cbv zeta.
    rewrite !value_triple, !world_triple, !trace_triple, !effects_app.
    unfold batch_driver.
    match goal with
    | |- context [for_targets (loop_body _ _ ?cl true ?k) ?l ?s ?x] =>
        destruct (for_targets_json cl true k l s x) as [H1 [H2 H3]]
    end.
    rewrite H1, H2, H3. auto.
Qed.

(** *** Exit status of the batch command *)

Lemma count_failed_zero rs :
  count_failed rs = 0 <-> forallb rec_success rs = true.
Proof.
  unfold count_failed. induction rs as [|r rs IH]; simpl; [tauto|].
  destruct (rec_success r); simpl; [exact IH|].
  split; [lia|discriminate].
Qed.

Lemma all_succeeded_ids rs :
  Forall record_well_formed rs ->
  forallb rec_success rs = true ->
  length (record_ids rs) = length rs.
Proof.
  unfold record_ids. induction 1 as [|r rs [Hr _] _ IH]; simpl; [reflexivity|].
  intros H. apply andb_prop in H. destruct H as [Hs Hrs].
  destruct (Hr Hs) as [Hu _]. unfold has_userId in Hu.
  destruct (rec_userId r); [|discriminate]. simpl. rewrite IH by assumption.
  reflexivity.
Qed.

(** X13. With valid credentials the batch command exits with status 0
    exactly when every record of its report has [success = true]; it has
    then made one follow call per target. *)
Theorem batch_exit_zero_iff_all_succeeded targets json opts w :
  credentials_missing (cookies_of opts w) = false ->
  exists st,
    report (value (batchFollowAction ctx normalizeHandle newTwitterClient
                     targets json opts w)) = Some st
    /\ (exit_status (value (batchFollowAction ctx normalizeHandle
                              newTwitterClient targets json opts w)) = 0
        <-> forallb rec_success (results st) = true)
    /\ (exit_status (value (batchFollowAction ctx normalizeHandle
                              newTwitterClient targets json opts w)) = 0 ->
        length (followed_ids (trace (batchFollowAction ctx normalizeHandle
                                       newTwitterClient targets json opts w)))
        = length targets).
Proof.
  intros Hc. destruct (batch_iterations targets json opts w Hc) as [pairs [-> Hi]].
  rewrite value_triple, trace_triple. eexists. split; [reflexivity|].
  simpl exit_status. simpl results.
  assert (Hz : (if 0 <? count_failed (map fst pairs) then 1 else 0) = 0
               <-> forallb rec_success (map fst pairs) = true).
  { rewrite <- count_failed_zero.
    destruct (Nat.ltb_spec 0 (count_failed (map fst pairs))); split; lia. }
  split; [exact Hz|].
  intros He. apply Hz in He.
  destruct (iterations_calls json _ targets pairs Hi) as [Hf _].
  destruct (iterations_facts json _ targets pairs Hi) as [Hw _].
  destruct (calls_of_warnings opts w) as [Hn _].
  rewrite !followed_ids_app, Hn, Hf, !length_app.
  rewrite (all_succeeded_ids _ Hw He), length_map, <- (Forall2_length Hi).
  destruct json; simpl; lia.
Qed.

(** X14. In the batch loop, a target whose handle normalizes to [h] but whose
    lookup fails (the lookup reports failure, or success without a non-empty
    user id) is counted as a failure and recorded under [@h] without user
    id, with the lookup's error or, when it has none, [User not found]; the
    iteration continues in the world the lookup left, with no follow call
    and no delay, and prints its diagnostic unless [--json] is set. *)
Theorem batch_lookup_failure_is_recorded client json n input st w h :
  numeric_re input = false ->
  truthy_value (normalizeHandle input) = Some h ->
  let lk := getUserIdByUsername client h w in
  lookup_success (fst lk) = false \/ truthy (lookup_userId (fst lk)) = false ->
  let error := nullish_or (lookup_error (fst lk)) "User not found" in
  loop_body ctx normalizeHandle client json n input st w
  = (mkBatch (results st ++ [mkRecord ("@" ++ h) None false (Some error)])
       (failures st + 1),
     snd lk,
     CallNormalize input :: NetLookup h
       :: (if json then []
           else [Stderr (p ctx "err" ++ "Failed to find user @" ++ h ++ ": "
                         ++ error)])).
Proof.
  intros Hn Hh lk Hl error.
  assert (Hl' : lookup_success (fst lk) && truthy (lookup_userId (fst lk)) = false).
  { destruct Hl as [-> | ->]; [reflexivity|apply andb_false_r]. }
  rewrite (loop_body_lookup_failed client json n input st w h Hn Hh Hl').
  reflexivity.
Qed.

End Properties.

Arguments cookies_of {W Options} ctx opts w.
Arguments warnings_of {W Options} ctx opts w.
Arguments world_after_credentials {W Options} ctx opts w.
Arguments client_of {W Options} ctx newTwitterClient opts w.
Arguments warning_lines {W Options} ctx opts w.
Arguments missing_line {W Options} ctx.
Arguments followed_line {W Options} ctx isUserId userId displayName.
Arguments progress_line_of {W Options} ctx normalizeHandle input line.
Arguments batch_segments {W Options} ctx normalizeHandle newTwitterClient
  targets json opts w.
Arguments single_succeeds {W Options} ctx normalizeHandle newTwitterClient
  mutate usernameOrId opts w.
Arguments without_usernames {W} client.
Arguments success_line {W Options} ctx normalizeHandle client input w.
Arguments progress_lines {W Options} ctx normalizeHandle client n targets st w.

(** ** Concrete runs in the sample world *)

(** C1 at three targets, two of which fail. *)
Lemma batch_report_reconciles_sample :
  credentials_missing (cookies_of Sample.ctx (Sample.good_cookies, []) []) = false
  /\ exists st,
       report (value (Sample.followN ["!!!"; "alice"; "77"] true
                        (Sample.good_cookies, []) [])) = Some st
       /\ length (results st) = 3
       /\ Forall2 (record_for Sample.normalizeHandle) ["!!!"; "alice"; "77"]
            (results st)
       /\ failures st = count_failed (results st)
       /\ (true = true ->
           stdout_lines (trace (Sample.followN ["!!!"; "alice"; "77"] true
                                  (Sample.good_cookies, []) []))
           = [JSON_stringify st]).
Proof.
  split; [reflexivity|].
  exact (batch_report_reconciles Sample.World Sample.Opts Sample.ctx
           Sample.normalizeHandle Sample.newClient ["!!!"; "alice"; "77"] true
           (Sample.good_cookies, []) [] eq_refl).
Defined.

(** C2 as worded fails on the batch command when a cookie is missing: the
    process exits with status 1 although no failure was counted (the
    counter does not exist yet, and the only event is the error line). *)
Lemma exit_one_without_any_failure :
  exit_status (value (Sample.followN ["123456"] false (Sample.no_ct0, []) [])) = 1
  /\ report (value (Sample.followN ["123456"] false (Sample.no_ct0, []) [])) = None
  /\ trace (Sample.followN ["123456"] false (Sample.no_ct0, []) [])
     = [Stderr "[err] Missing required credentials"]
  /\ exit_rule_as_worded
       (value (Sample.followN ["123456"] false (Sample.no_ct0, []) [])) = false.
Proof. repeat split. Qed.

(** C3 as worded fails on two targets of which the first has an invalid
    handle: no delay separates the two targets, and a delay follows the
    last one. *)
Lemma delay_missing_between_and_present_after :
  batch_segments Sample.ctx Sample.normalizeHandle Sample.newClient
    ["!!!"; "123456"] false (Sample.good_cookies, []) []
  = [[CallNormalize "!!!"; Stderr "[err] Invalid handle: !!!"];
     [NetFollow "123456"; Stdout "[ok] Followed 123456"; Sleep 500]]
  /\ trace (Sample.followN ["!!!"; "123456"] false (Sample.good_cookies, []) [])
     = [CallNormalize "!!!"; Stderr "[err] Invalid handle: !!!";
        NetFollow "123456"; Stdout "[ok] Followed 123456"; Sleep 500]
  /\ delays_only_between
       (batch_segments Sample.ctx Sample.normalizeHandle Sample.newClient
          ["!!!"; "123456"] false (Sample.good_cookies, []) []) = false.
Proof. repeat split. Qed.

(** C3 as amended, on three targets of which the second has an invalid
    handle. *)
Lemma delay_follows_each_follow_call_sample :
  credentials_missing (cookies_of Sample.ctx (Sample.good_cookies, []) []) = false
  /\ batch_segments Sample.ctx Sample.normalizeHandle Sample.newClient
       ["999"; "!!!"; "123456"] true (Sample.good_cookies, []) []
     = [[NetFollow "999"; Sleep 500]; [CallNormalize "!!!"];
        [NetFollow "123456"; Sleep 500]]
  /\ Forall (fun seg => existsb is_follow_call seg = true -> ends_with_delay seg)
       [[NetFollow "999"; Sleep 500]; [CallNormalize "!!!"]].
Proof.
  split; [reflexivity|]. split; [reflexivity|].
  exact (proj1 (proj2 (proj2
    (delay_follows_each_follow_call Sample.World Sample.Opts Sample.ctx
       Sample.normalizeHandle Sample.newClient ["999"; "!!!"; "123456"] true
       (Sample.good_cookies, []) [] eq_refl)))).
Defined.

(** C4 on the id [123456]. *)
Lemma numeric_target_is_the_user_id_sample :
  numeric_re "123456" = true
  /\ resolveUserId Sample.ctx Sample.normalizeHandle Sample.client "123456" []
     = (Some (mkResolved "123456" None), [], []).
Proof.
  split; [reflexivity|].
  exact (proj1
    (numeric_target_is_the_user_id Sample.World Sample.Opts Sample.ctx
       Sample.normalizeHandle Sample.newClient Sample.client false 1 "123456"
       (mkBatch [] 0) (Sample.good_cookies, []) [] eq_refl)).
Defined.


(** C6 on cookies without [ct0]. *)
Lemma missing_credentials_abort_sample :
  credentials_missing (cookies_of Sample.ctx (Sample.no_ct0, ["stale"]) []) = true
  /\ Sample.follow1 "alice" (Sample.no_ct0, ["stale"]) []
     = (1, [], [Stderr "[warn] stale"; Stderr "[err] Missing required credentials"]).
Proof.
  split; [reflexivity|].
  exact (proj1
    (missing_credentials_abort Sample.World Sample.Opts Sample.ctx
       Sample.normalizeHandle Sample.newClient ["alice"] true "alice"
       (Sample.no_ct0, ["stale"]) [] eq_refl)).
Defined.

(** C8 as worded fails on the batch command: following the id [123456]
    succeeds with the username [bob], and the line names the id.  It also
    fails on a result whose username is the empty string, which the
    single-target command treats as no username: the line names the id, not
    [@] and the username. *)
Lemma batch_line_ignores_the_username :
  followUser Sample.client "123456" []
  = (mkOperation true (Some "bob") None, ["123456"])
  /\ stdout_lines (trace (Sample.followN ["123456"] false
                            (Sample.good_cookies, []) []))
     = ["[ok] Followed 123456"]
  /\ contains "@bob" "[ok] Followed 123456" = false
  /\ follow Sample.blank_client "123456" []
     = (mkOperation true (Some EmptyString) None, ["123456"])
  /\ stdout_lines
       (trace (followAction Sample.ctx Sample.normalizeHandle
                 (fun _ _ => Sample.blank_client) "123456"
                 (Sample.good_cookies, []) []))
     = ["[ok] Now following 123456"]
  /\ contains "@" "[ok] Now following 123456" = false.
Proof. repeat split. Qed.

(** C8 as amended, on the single-target follow of the id [123456] and on the
    batch follow of the handle [alice] and the id [77]. *)
Lemma success_line_names_the_user_sample :
  credentials_missing (cookies_of Sample.ctx (Sample.good_cookies, []) []) = false
  /\ stdout_lines (trace (Sample.follow1 "123456" (Sample.good_cookies, []) []))
     = ["[ok] Now following @bob"]
  /\ progress_lines Sample.ctx Sample.normalizeHandle Sample.client 2
       ["alice"; "77"] (mkBatch [] 0) []
     = ["[ok] Followed @alice (ID: 999)"]
  /\ stdout_lines (trace (Sample.followN ["alice"; "77"] false
                            (Sample.good_cookies, []) []))
     = progress_lines Sample.ctx Sample.normalizeHandle Sample.client 2
         ["alice"; "77"] (mkBatch [] 0) [].
Proof.
  split; [reflexivity|]. split; [|split; [reflexivity|]].
  - exact (proj1
      (success_line_names_the_user Sample.World Sample.Opts Sample.ctx
         Sample.normalizeHandle Sample.newClient ["alice"; "77"] "123456"
         (Sample.good_cookies, []) [] eq_refl)
      (mkResolved "123456" None) "bob" eq_refl eq_refl eq_refl).
  - exact (proj1 (proj2 (proj2 (proj2
      (success_line_names_the_user Sample.World Sample.Opts Sample.ctx
         Sample.normalizeHandle Sample.newClient ["alice"; "77"] "123456"
         (Sample.good_cookies, []) [] eq_refl))))).
Defined.

(** C9 in the sample world, where it is the case that [alice] has id [999]
    and both ids can be followed. *)
Lemma scenario_alice_then_id_sample :
  value (Sample.followN ["alice"; "123456"] true (Sample.good_cookies, []) [])
  = mkBatchExit 0
      (Some (mkBatch [mkRecord "@alice" (Some "999") true None;
                      mkRecord "123456" (Some "123456") true None] 0)).
Proof.
  exact (scenario_alice_then_id Sample.World Sample.Opts Sample.ctx
           Sample.normalizeHandle Sample.newClient true
           (Sample.good_cookies, []) []
           eq_refl eq_refl eq_refl eq_refl eq_refl eq_refl).
Defined.

(** C10 as worded fails when a cookie is missing: with [--json] the process
    exits with status 1 and nothing was written to stdout. *)
Lemma no_document_without_credentials :
  exit_status (value (Sample.followN ["123456"] true (Sample.no_ct0, []) [])) = 1
  /\ stdout_lines (trace (Sample.followN ["123456"] true (Sample.no_ct0, []) []))
     = []
  /\ trace (Sample.followN ["123456"] true (Sample.no_ct0, []) [])
     = [Stderr "[err] Missing required credentials"].
Proof. repeat split. Qed.

(** C10 as amended, on a run where the only target fails. *)
Lemma json_document_precedes_exit_sample :
  credentials_missing (cookies_of Sample.ctx (Sample.good_cookies, []) []) = false
  /\ exists st before,
       report (value (Sample.followN ["!!!"] true (Sample.good_cookies, []) []))
       = Some st
       /\ trace (Sample.followN ["!!!"] true (Sample.good_cookies, []) [])
          = before ++ [Stdout (JSON_stringify st)]
       /\ stdout_lines before = []
       /\ exit_status (value (Sample.followN ["!!!"] true
                                (Sample.good_cookies, []) []))
          = (if 0 <? failures st then 1 else 0).
Proof.
  split; [reflexivity|].
  exact (json_document_precedes_exit Sample.World Sample.Opts Sample.ctx
           Sample.normalizeHandle Sample.newClient ["!!!"]
           (Sample.good_cookies, []) [] eq_refl).
Defined.

(** ** More concrete runs *)

(** X2 on [@carol], whom the sample directory does not know. *)
Lemma lookup_failure_is_a_resolution_error_sample :
  numeric_re "@carol" = false
  /\ truthy_value (Sample.normalizeHandle "@carol") = Some "carol"
  /\ resolveUserId Sample.ctx Sample.normalizeHandle Sample.client "@carol" []
     = (None, [],
        [CallNormalize "@carol"; NetLookup "carol";
         Stderr "[err] Failed to find user @carol: User not found"]).
Proof.
  split; [reflexivity|]. split; [reflexivity|].
  exact (lookup_failure_is_a_resolution_error Sample.World Sample.Opts
           Sample.ctx Sample.normalizeHandle Sample.client "@carol" [] "carol"
           eq_refl eq_refl (or_introl eq_refl)).
Defined.

(** X3 on [@alice], for the follow command. *)
Lemma single_target_mutates_the_looked_up_id_sample :
  credentials_missing (cookies_of Sample.ctx (Sample.good_cookies, []) []) = false
  /\ exists line,
       is_console line = true
       /\ Sample.follow1 "@alice" (Sample.good_cookies, []) []
          = (0, ["999"],
             [CallNormalize "@alice"; NetLookup "alice"; NetFollow "999"; line]).
Proof.
  split; [reflexivity|].
  exact (proj1
    (single_target_mutates_the_looked_up_id Sample.World Sample.Opts Sample.ctx
       Sample.normalizeHandle Sample.newClient "@alice"
       (Sample.good_cookies, []) [] "alice" "999"
       eq_refl eq_refl eq_refl eq_refl eq_refl)).
Defined.


(** X9 on three targets: the two that reach the follow call are the two
    records with a user id. *)
Lemma batch_follow_calls_match_the_report_sample :
  credentials_missing (cookies_of Sample.ctx (Sample.good_cookies, []) []) = false
  /\ followed_ids (trace (Sample.followN ["!!!"; "alice"; "77"] false
                            (Sample.good_cookies, []) []))
     = ["999"; "77"]
  /\ exists st,
       report (value (Sample.followN ["!!!"; "alice"; "77"] false
                        (Sample.good_cookies, []) [])) = Some st
       /\ followed_ids (trace (Sample.followN ["!!!"; "alice"; "77"] false
                                 (Sample.good_cookies, []) []))
          = record_ids (results st)
       /\ count_events is_unfollow_call
            (trace (Sample.followN ["!!!"; "alice"; "77"] false
                      (Sample.good_cookies, []) [])) = 0.
Proof.
  split; [reflexivity|]. split; [reflexivity|].
  exact (batch_follow_calls_match_the_report Sample.World Sample.Opts Sample.ctx
           Sample.normalizeHandle Sample.newClient ["!!!"; "alice"; "77"] false
           (Sample.good_cookies, []) [] eq_refl).
Defined.

(** X10 on four targets, of which two are handles that normalize. *)
Lemma batch_lookups_are_the_normalized_handles_sample :
  credentials_missing (cookies_of Sample.ctx (Sample.good_cookies, []) []) = false
  /\ handles_to_look_up Sample.normalizeHandle ["!!!"; "@alice"; "77"; "carol"]
     = ["alice"; "carol"]
  /\ looked_up (trace (Sample.followN ["!!!"; "@alice"; "77"; "carol"] true
                         (Sample.good_cookies, []) []))
     = handles_to_look_up Sample.normalizeHandle ["!!!"; "@alice"; "77"; "carol"].
Proof.
  split; [reflexivity|]. split; [reflexivity|].
  exact (batch_lookups_are_the_normalized_handles Sample.World Sample.Opts
           Sample.ctx Sample.normalizeHandle Sample.newClient
           ["!!!"; "@alice"; "77"; "carol"] true (Sample.good_cookies, []) []
           eq_refl).
Defined.

(** X11 on three targets and one warning: one line on stdout, three on
    stderr. *)
Lemma batch_prints_one_line_per_target_sample :
  credentials_missing (cookies_of Sample.ctx (Sample.good_cookies, ["stale"]) [])
  = false
  /\ stdout_lines (trace (Sample.followN ["!!!"; "alice"; "77"] false
                            (Sample.good_cookies, ["stale"]) []))
     = ["[ok] Followed @alice (ID: 999)"]
  /\ stderr_lines (trace (Sample.followN ["!!!"; "alice"; "77"] true
                            (Sample.good_cookies, ["stale"]) []))
     = stderr_lines (warning_lines Sample.ctx (Sample.good_cookies, ["stale"]) []).
Proof.
  split; [reflexivity|]. split; [reflexivity|].
  exact (proj2
    (batch_prints_one_line_per_target Sample.World Sample.Opts Sample.ctx
       Sample.normalizeHandle Sample.newClient ["!!!"; "alice"; "77"]
       (Sample.good_cookies, ["stale"]) [] eq_refl)).
Defined.

(** X13 on two targets that can both be followed. *)
Lemma batch_exit_zero_iff_all_succeeded_sample :
  credentials_missing (cookies_of Sample.ctx (Sample.good_cookies, []) []) = false
  /\ exit_status (value (Sample.followN ["alice"; "123456"] false
                           (Sample.good_cookies, []) [])) = 0
  /\ exists st,
       report (value (Sample.followN ["alice"; "123456"] false
                        (Sample.good_cookies, []) [])) = Some st
       /\ (exit_status (value (Sample.followN ["alice"; "123456"] false
                                 (Sample.good_cookies, []) [])) = 0
           <-> forallb rec_success (results st) = true)
       /\ (exit_status (value (Sample.followN ["alice"; "123456"] false
                                 (Sample.good_cookies, []) [])) = 0 ->
           length (followed_ids
                     (trace (Sample.followN ["alice"; "123456"] false
                               (Sample.good_cookies, []) []))) = 2).
Proof.
  split; [reflexivity|]. split; [reflexivity|].
  exact (batch_exit_zero_iff_all_succeeded Sample.World Sample.Opts Sample.ctx
           Sample.normalizeHandle Sample.newClient ["alice"; "123456"] false
           (Sample.good_cookies, []) [] eq_refl).
Defined.

(** X14 on [@carol], as the second of two targets. *)
Lemma batch_lookup_failure_is_recorded_sample :
  numeric_re "@carol" = false
  /\ truthy_value (Sample.normalizeHandle "@carol") = Some "carol"
  /\ loop_body Sample.ctx Sample.normalizeHandle Sample.client false 2 "@carol"
       (mkBatch [] 0) []
     = (mkBatch [mkRecord "@carol" None false (Some "User not found")] 1, [],
        [CallNormalize "@carol"; NetLookup "carol";
         Stderr "[err] Failed to find user @carol: User not found"]).
Proof.
  split; [reflexivity|]. split; [reflexivity|].
  exact (batch_lookup_failure_is_recorded Sample.World Sample.Opts Sample.ctx
           Sample.normalizeHandle Sample.client false 2 "@carol" (mkBatch [] 0) []
           "carol" eq_refl eq_refl (or_introl eq_refl)).
Defined.
